(** * Campaign report pipeline: normalisation, aggregation, insights

    A shallow embedding of [src/main.py] (functions [check_data_columns],
    [clean_and_prepare_data], [calculate_summary_stats] and
    [generate_insights]) together with the properties stated about them.

    Modelling conventions.
    - A pandas frame is a header (list of column names) and a list of
      rows.  A raw cell is [option string]: [None] is a missing value
      (NaN), [Some s] is the textual form of the value, the one
      [astype(str)] yields.
    - A numeric value is [option Q]: [None] is NaN (null) and [Some q] an
      exact rational.  Arithmetic is exact: binary rounding, overflow and
      infinities of 64-bit floats are not represented.
    - [pd.to_numeric(..., errors='coerce')] on one textual value and
      [pd.to_datetime] on one value are parameters of the development; a
      plain decimal reader instantiates the former on concrete tables.
    - [sys.exit(1)] after a diagnostic is the outcome [Exit]; an uncaught
      Python exception is the outcome [Raised]. *)

From stdpp Require Import base strings gmap.
From Stdlib Require Import ZArith QArith Qround Lqa Lia List Ascii String.
From Stdlib Require Import Sorted OrderedTypeEx.
Import ListNotations.

Local Open Scope string_scope.
Local Open Scope Q_scope.
Local Open Scope list_scope.

(** ** Outcomes of a pipeline stage *)

Inductive outcome (A : Type) : Type :=
| Ok (a : A)
| Exit (msg : string)
| Raised (exn : string).
Arguments Ok {A} a.
Arguments Exit {A} msg.
Arguments Raised {A} exn.

Definition bind {A B : Type} (m : outcome A) (k : A -> outcome B) : outcome B :=
  match m with
  | Ok a => k a
  | Exit msg => Exit msg
  | Raised e => Raised e
  end.

Notation "'do' x <- m ; k" := (bind m (fun x => k))
  (at level 10, x name, m at level 100, k at level 200).

(** ** Frames, cells and numbers *)

Definition cell := option string.
Definition num := option Q.

Record DataFrame (R : Type) : Type := mkFrame {
  columns : list string;
  rows : list R
}.
Arguments mkFrame {R} columns rows.
Arguments columns {R} d.
Arguments rows {R} d.

Definition RawFrame := DataFrame (list cell).

(** [col in data.columns] *)
Definition in_columns (col : string) (cols : list string) : bool :=
  existsb (String.eqb col) cols.

(** Positions of the columns named [col]; [data[col]] is a series when
    there is exactly one and a sub-frame when there are several. *)
Fixpoint positions_from (i : nat) (col : string) (cols : list string) : list nat :=
  match cols with
  | [] => []
  | c :: cs => if String.eqb c col
               then i :: positions_from (S i) col cs
               else positions_from (S i) col cs
  end.

Definition positions (col : string) (cols : list string) : list nat :=
  positions_from 0 col cols.

Definition series (col : string) (cols : list string) : outcome nat :=
  match positions col cols with
  | [i] => Ok i
  | [] => Raised ("KeyError: " +:+ col)
  | _ => Raised ("not a Series: " +:+ col)
  end.

Definition at_col (i : nat) (row : list cell) : cell := nth i row None.

(** ** Numbers with NaN *)

Definition notna (x : num) : bool := if x is Some _ then true else false.

Definition num_mul (x y : num) : num :=
  match x, y with
  | Some a, Some b => Some (a * b)
  | _, _ => None
  end.

(** Division; a zero divisor yields an infinity or NaN in pandas, which
    has no exact counterpart: it is [None] here and is shown not to occur
    on the guarded table. *)
Definition num_div (x y : num) : num :=
  match x, y with
  | Some a, Some b => if Qeq_bool b 0 then None else Some (a / b)
  | _, _ => None
  end.

(** [series == v] on one value: NaN compares unequal to everything. *)
Definition num_eqb (x : num) (v : Q) : bool :=
  match x with
  | Some a => Qeq_bool a v
  | None => false
  end.

(** ** SchemaResolver: [check_data_columns] *)

Definition first_candidate (cands cols : list string) : option string :=
  List.find (fun col => in_columns col cols) cands.

Definition map_field (std : string) (cands cols : list string)
    (column_mapping : list (string * string)) : list (string * string) :=
  match first_candidate cands cols with
  | Some col => column_mapping ++ [(std, col)]
  | None => column_mapping
  end.

Definition revenue_candidates : list string :=
  ["ROI"; "Revenue"; "revenue"; "sales"; "conversion_value"].

Definition check_data_columns (data : RawFrame) : list (string * string) :=
  let cols := columns data in
  let column_mapping := [] in
  let column_mapping :=
    map_field "campaign" ["Campaign_ID"; "campaign"; "Campaign"; "campaign_id"]
      cols column_mapping in
  let column_mapping :=
    map_field "date" ["Date"; "date"; "timestamp"; "Date_Stamp"]
      cols column_mapping in
  let column_mapping :=
    map_field "impressions" ["Impressions"; "impressions"; "views"; "Views"]
      cols column_mapping in
  let column_mapping :=
    map_field "clicks" ["Clicks"; "clicks"; "click_count"] cols column_mapping in
  let column_mapping :=
    map_field "spend" ["Acquisition_Cost"; "Spend"; "spend"; "cost"; "Cost"]
      cols column_mapping in
  let column_mapping :=
    map_field "revenue" revenue_candidates cols column_mapping in
  column_mapping.

(** ** DataNormalizer: [clean_and_prepare_data] *)

(** [Series.str.replace(pat, repl)] for a one-character pattern, which
    pandas treats as a literal. *)
Fixpoint str_replace (pat : ascii) (repl : string) (s : string) : string :=
  match s with
  | EmptyString => EmptyString
  | String c s' =>
      if Ascii.eqb c pat then repl +:+ str_replace pat repl s'
      else String c (str_replace pat repl s')
  end.

(** [astype(str)] on one cell. *)
Definition astype_str (c : cell) : string :=
  match c with
  | Some s => s
  | None => "nan"
  end.

(** [data.rename(columns={orig_name: std_name})] on the header. *)
Definition rename (orig_name std_name : string) (cols : list string) : list string :=
  map (fun c => if String.eqb c orig_name then std_name else c) cols.

Definition apply_mapping (column_map : list (string * string))
    (cols : list string) : list string :=
  fold_left (fun cols '(std_name, orig_name) => rename orig_name std_name cols)
            column_map cols.

Definition required : list string :=
  ["campaign"; "date"; "impressions"; "clicks"; "spend"].

Definition missing_required (cols : list string) : option string :=
  List.find (fun col => negb (in_columns col cols)) required.

Definition missing_message (col : string) : string :=
  "ERROR: Missing required column '" +:+ col +:+ "'".

(** A parsed date: pandas keeps nanoseconds since the epoch. *)
Definition stamp := Z.

(** The date column holds either the original value or a parsed stamp. *)
Inductive datev : Type :=
| DRaw (c : cell)
| DStamp (t : stamp).

(** A row after coercion (source lines 71-80). *)
Record Coerced : Type := mkCoerced {
  c_campaign : cell;
  c_date : cell;
  c_impressions : num;
  c_clicks : num;
  c_spend : num;
  c_revenue : num
}.

(** A row of the canonical table. *)
Record CampaignRecord : Type := mkRecord {
  campaign : cell;
  date : datev;
  impressions : num;
  clicks : num;
  spend : num;
  revenue : num;
  ctr : num;
  cpc : num;
  roas : num
}.

Definition Table := DataFrame CampaignRecord.

(** [data.loc[data[f] == 0, f] = v] on one value. *)
Definition guard (v : Q) (x : num) : num :=
  if num_eqb x 0 then Some v else x.

Definition guard_row (r : Coerced) : Coerced :=
  let r := mkCoerced (c_campaign r) (c_date r) (guard 1 (c_impressions r))
                     (c_clicks r) (c_spend r) (c_revenue r) in
  let r := mkCoerced (c_campaign r) (c_date r) (c_impressions r)
                     (guard 1 (c_clicks r)) (c_spend r) (c_revenue r) in
  mkCoerced (c_campaign r) (c_date r) (c_impressions r)
            (c_clicks r) (guard 0.01 (c_spend r)) (c_revenue r).

(** [data.dropna(subset=['impressions','clicks','spend'])] keeps a row
    when none of the three is NaN. *)
Definition complete (r : Coerced) : bool :=
  notna (c_impressions r) && notna (c_clicks r) && notna (c_spend r).

(** Source lines 88-90. *)
Definition derive (r : Coerced) : CampaignRecord :=
  mkRecord (c_campaign r) (DRaw (c_date r)) (c_impressions r) (c_clicks r)
           (c_spend r) (c_revenue r)
           (num_div (c_clicks r) (c_impressions r))
           (num_div (c_spend r) (c_clicks r))
           (num_div (c_revenue r) (c_spend r)).

Definition raw_date (r : CampaignRecord) : cell :=
  match date r with
  | DRaw c => c
  | DStamp _ => None
  end.

Definition set_date (d : datev) (r : CampaignRecord) : CampaignRecord :=
  mkRecord (campaign r) d (impressions r) (clicks r) (spend r) (revenue r)
           (ctr r) (cpc r) (roas r).

(** Assigning [data[col] = ...] adds the column when it is new. *)
Definition add_column (col : string) (cols : list string) : list string :=
  if in_columns col cols then cols else cols ++ [col].

Section Normalizer.

(** [pd.to_numeric] with [errors='coerce'] on one textual value. *)
Variable to_numeric_str : string -> num.

(** [pd.to_datetime] on one value; [None] when it raises. *)
Variable to_datetime : cell -> option stamp.

Definition to_numeric (c : cell) : num :=
  match c with
  | Some s => to_numeric_str s
  | None => None
  end.

(** Source line 71 followed by line 75, on one cell. *)
Definition clean_spend (c : cell) : num :=
  to_numeric_str (str_replace "," "" (str_replace "$" "" (astype_str c))).

(** Source lines 71-80 on one row. *)
Definition coerce_row (i_campaign i_date i_impressions i_clicks i_spend : nat)
    (i_revenue : option nat) (row : list cell) : Coerced :=
  let spend := clean_spend (at_col i_spend row) in
  mkCoerced (at_col i_campaign row) (at_col i_date row)
            (to_numeric (at_col i_impressions row))
            (to_numeric (at_col i_clicks row))
            spend
            (match i_revenue with
             | Some i => to_numeric (at_col i row)
             | None => num_mul spend (Some 2.5)
             end).

Definition converts (r : CampaignRecord) : bool :=
  if to_datetime (raw_date r) is Some _ then true else false.

(** Source lines 92-95: the whole column is converted, or, when the
    conversion raises, left as it is. *)
Definition convert_dates (one_date : bool) (data : list CampaignRecord)
    : list CampaignRecord :=
  if one_date && forallb converts data
  then map (fun r => match to_datetime (raw_date r) with
                     | Some t => set_date (DStamp t) r
                     | None => r
                     end) data
  else data.

(** The normalizer.  Impressions, clicks, spend and a mapped revenue are
    read as series, which raises when the renamed header has the name
    twice.  The campaign and date columns are only carried along: a
    record shows the first column of that name, a date column that is
    not a single series is left unconverted, and a campaign column that
    is not a single series makes the aggregator raise at [groupby]. *)
Definition clean_and_prepare_data (raw_data : RawFrame)
    (column_map : list (string * string)) : outcome Table :=
  let cols := apply_mapping column_map (columns raw_data) in
  match missing_required cols with
  | Some col => Exit (missing_message col)
  | None =>
      do i_spend <- series "spend" cols;
      do i_impressions <- series "impressions" cols;
      do i_clicks <- series "clicks" cols;
      do i_revenue <- (if in_columns "revenue" cols
                       then do i <- series "revenue" cols; Ok (Some i)
                       else Ok None);
      let i_campaign := hd 0%nat (positions "campaign" cols) in
      let i_date := hd 0%nat (positions "date" cols) in
      let data := map (coerce_row i_campaign i_date i_impressions i_clicks
                                  i_spend i_revenue) (rows raw_data) in
      let data := List.filter complete data in
      let data := map guard_row data in
      let data := map derive data in
      let data := convert_dates
                    (Nat.eqb (List.length (positions "date" cols)) 1) data in
      Ok (mkFrame (add_column "roas" (add_column "cpc" (add_column "ctr"
                     (add_column "revenue" cols)))) data)
  end.

End Normalizer.

(** A reader of plain decimal literals (optional sign, digits, optional
    point): the instance of [to_numeric_str] used on concrete tables. *)
Definition digit_of (c : ascii) : option Z :=
  let n := Z.of_N (N_of_ascii c) in
  if ((48 <=? n) && (n <=? 57))%Z then Some (n - 48)%Z else None.

Fixpoint read_decimal (s : string) (acc : Z) (den : positive)
    (after_point seen : bool) : num :=
  match s with
  | EmptyString => if seen then Some (acc # den) else None
  | String c s' =>
      if Ascii.eqb c "." then
        if after_point then None else read_decimal s' acc den true seen
      else
        match digit_of c with
        | Some d => read_decimal s' (acc * 10 + d)%Z
                      (if after_point then (den * 10)%positive else den)
                      after_point true
        | None => None
        end
  end.

Definition parse_decimal (s : string) : num :=
  match s with
  | String "-" s' => option_map Qopp (read_decimal s' 0 1 false false)
  | String "+" s' => read_decimal s' 0 1 false false
  | _ => read_decimal s 0 1 false false
  end.

(** ** Aggregator: [calculate_summary_stats] *)

(** [Series.sum()]: NaN is skipped, the empty sum is 0. *)
Definition col_sum (xs : list num) : Q :=
  fold_right (fun x acc => match x with Some q => q + acc | None => acc end) 0 xs.

(** Number of values that are not NaN. *)
Definition col_count (xs : list num) : nat :=
  List.length (List.filter notna xs).

(** [Series.mean()]: NaN is skipped; NaN when nothing is left. *)
Definition col_mean (xs : list num) : num :=
  match col_count xs with
  | O => None
  | S n => Some (col_sum xs / inject_Z (Z.of_nat (S n)))
  end.

(** [int(x)]: truncation towards zero. *)
Definition py_int (q : Q) : Z := Z.quot (Qnum q) (Zpos (Qden q)).

(** Round half to even to an integer, and [round(2)]. *)
Definition rint (q : Q) : Z :=
  let f := Qfloor q in
  let r := q - inject_Z f in
  match Qcompare r (1 # 2) with
  | Lt => f
  | Gt => (f + 1)%Z
  | Eq => if Z.even f then f else (f + 1)%Z
  end.

Definition round2 (q : Q) : Q := inject_Z (rint (q * 100)) / 100.

(** One row of [campaign_stats]. *)
Record Rollup : Type := mkRollup {
  r_roas : num;
  r_revenue : Q;
  r_spend : Q
}.

(** Keys of [groupby('campaign')]: distinct, in ascending order; rows
    with a missing campaign belong to no group. *)
Fixpoint insert_key (k : string) (ks : list string) : list string :=
  match ks with
  | [] => [k]
  | k' :: ks' =>
      match String.compare k k' with
      | Lt => k :: ks
      | Eq => ks
      | Gt => k' :: insert_key k ks'
      end
  end.

Definition group_keys (data : list CampaignRecord) : list string :=
  fold_right (fun r ks => match campaign r with
                          | Some k => insert_key k ks
                          | None => ks
                          end) [] data.

Definition in_group (k : string) (r : CampaignRecord) : bool :=
  match campaign r with
  | Some k' => String.eqb k' k
  | None => false
  end.

Definition rollup (g : list CampaignRecord) : Rollup :=
  mkRollup (option_map round2 (col_mean (map roas g)))
           (round2 (col_sum (map revenue g)))
           (round2 (col_sum (map spend g))).

(** [data.groupby('campaign').agg({...}).round(2)] *)
Definition campaign_stats (data : list CampaignRecord) : list (string * Rollup) :=
  map (fun k => (k, rollup (List.filter (in_group k) data))) (group_keys data).

(** [Series.idxmax()]: label of the first occurrence of the maximum,
    NaN skipped; [None] when every value is NaN. *)
Fixpoint idxmax_from (best : string) (v : Q) (l : list (string * num)) : string :=
  match l with
  | [] => best
  | (k, Some w) :: l' =>
      if Qle_bool w v then idxmax_from best v l' else idxmax_from k w l'
  | (_, None) :: l' => idxmax_from best v l'
  end.

Fixpoint idxmax (l : list (string * num)) : option string :=
  match l with
  | [] => None
  | (k, Some v) :: l' => Some (idxmax_from k v l')
  | (_, None) :: l' => idxmax l'
  end.

Fixpoint idxmin_from (best : string) (v : Q) (l : list (string * num)) : string :=
  match l with
  | [] => best
  | (k, Some w) :: l' =>
      if Qle_bool v w then idxmin_from best v l' else idxmin_from k w l'
  | (_, None) :: l' => idxmin_from best v l'
  end.

Fixpoint idxmin (l : list (string * num)) : option string :=
  match l with
  | [] => None
  | (k, Some v) :: l' => Some (idxmin_from k v l')
  | (_, None) :: l' => idxmin l'
  end.

(** [campaign_stats.loc[idx, 'roas']] *)
Definition loc (idx : string) (stats : list (string * Rollup)) : option Rollup :=
  option_map snd (List.find (fun e => String.eqb (fst e) idx) stats).

(** [DataFrame.nlargest(n, 'revenue')]: the first [n] rows of a stable
    sort by decreasing revenue. *)
Fixpoint insert_desc (e : string * Rollup) (l : list (string * Rollup))
    : list (string * Rollup) :=
  match l with
  | [] => [e]
  | e' :: l' =>
      if Qle_bool (r_revenue (snd e')) (r_revenue (snd e))
      then e :: l
      else e' :: insert_desc e l'
  end.

Definition sort_desc (l : list (string * Rollup)) : list (string * Rollup) :=
  fold_right insert_desc [] l.

Definition nlargest (n : nat) (l : list (string * Rollup)) : list (string * Rollup) :=
  firstn n (sort_desc l).

(** Values of the summary dictionary. *)
Inductive value : Type :=
| VInt (z : Z)
| VFloat (x : num)
| VStr (s : string)
| VDict (d : list (string * Rollup)).

Definition roas_column (stats : list (string * Rollup)) : list (string * num) :=
  map (fun e => (fst e, r_roas (snd e))) stats.

Definition calculate_summary_stats (data : Table) : outcome (gmap string value) :=
  let summary : gmap string value := ∅ in
  let summary := <["total_impressions" :=
                     VInt (py_int (col_sum (map impressions (rows data))))]> summary in
  let summary := <["total_clicks" :=
                     VInt (py_int (col_sum (map clicks (rows data))))]> summary in
  let summary := <["total_spend" :=
                     VFloat (Some (col_sum (map spend (rows data))))]> summary in
  let summary := <["total_revenue" :=
                     VFloat (Some (col_sum (map revenue (rows data))))]> summary in
  let summary := <["avg_ctr" := VFloat (col_mean (map ctr (rows data)))]> summary in
  let summary := <["avg_cpc" := VFloat (col_mean (map cpc (rows data)))]> summary in
  let summary := <["avg_roas" := VFloat (col_mean (map roas (rows data)))]> summary in
  do _ <- series "campaign" (columns data);
  let stats := campaign_stats (rows data) in
  match stats with
  | [] => Ok summary
  | _ :: _ =>
      match idxmax (roas_column stats), idxmin (roas_column stats) with
      | Some best_idx, Some worst_idx =>
          match loc best_idx stats, loc worst_idx stats with
          | Some b, Some w =>
              let summary := <["best_campaign" := VStr best_idx]> summary in
              let summary := <["best_roas" := VFloat (r_roas b)]> summary in
              let summary := <["worst_campaign" := VStr worst_idx]> summary in
              let summary := <["worst_roas" := VFloat (r_roas w)]> summary in
              let top_5 := nlargest 5 stats in
              Ok (<["top_5_campaigns" := VDict top_5]> summary)
          | _, _ => Raised "KeyError"
          end
      | _, _ => Raised "KeyError: nan"
      end
  end.

(** ** InsightComposer: [generate_insights] *)

(** [s[key]] on the summary dictionary. *)
Definition getitem (s : gmap string value) (key : string) : outcome value :=
  match s !! key with
  | Some v => Ok v
  | None => Raised ("KeyError: " +:+ key)
  end.

(** [x * 100] on a summary value. *)
Definition times100 (v : value) : outcome value :=
  match v with
  | VInt z => Ok (VInt (z * 100))
  | VFloat x => Ok (VFloat (num_mul x (Some 100)))
  | _ => Raised "TypeError"
  end.

Section InsightComposer.

(** [format(v, spec)], the rendering of one replacement field of an
    f-string; it may raise. *)
Variable format : value -> string -> outcome string.

Definition field (s : gmap string value) (key spec : string) : outcome string :=
  do v <- getitem s key; format v spec.

Definition generate_insights (s : gmap string value) : outcome (list string) :=
  do impressions <- field s "total_impressions" ",";
  do clicks <- field s "total_clicks" ",";
  let i1 := "Our campaigns delivered " +:+ impressions +:+ " impressions and "
            +:+ clicks +:+ " clicks." in
  do spend <- field s "total_spend" ",.2f";
  do revenue <- field s "total_revenue" ",.2f";
  let i2 := "Total ad spend was $" +:+ spend +:+ ", generating $"
            +:+ revenue +:+ " in revenue." in
  do avg_ctr <- getitem s "avg_ctr";
  do pct <- times100 avg_ctr;
  do pct <- format pct ".2f";
  let i3 := "The average click-through rate was " +:+ pct +:+ "%." in
  do avg_cpc <- field s "avg_cpc" ".2f";
  let i4 := "Each click cost $" +:+ avg_cpc +:+ "." in
  do best_campaign <- field s "best_campaign" "";
  do best_roas <- field s "best_roas" ".2f";
  let i5 := "The best campaign was '" +:+ best_campaign +:+ "' with ROAS "
            +:+ best_roas +:+ "." in
  do worst_campaign <- field s "worst_campaign" "";
  do worst_roas <- field s "worst_roas" ".2f";
  let i6 := "The lowest performing campaign was '" +:+ worst_campaign
            +:+ "' with ROAS " +:+ worst_roas +:+ "." in
  do avg_roas <- field s "avg_roas" ".2f";
  let i7 := "Overall ROAS was " +:+ avg_roas +:+ "." in
  Ok [i1; i2; i3; i4; i5; i6; i7].

End InsightComposer.

(** ** Views used in the statements *)

(** Position of the first column named [col]. *)
Definition idx (col : string) (cols : list string) : nat :=
  hd 0%nat (positions col cols).

(** The coerced form of a raw row under the renamed header [cols]. *)
Definition coerced (to_numeric_str : string -> num) (cols : list string)
    (row : list cell) : Coerced :=
  coerce_row to_numeric_str (idx "campaign" cols) (idx "date" cols)
    (idx "impressions" cols) (idx "clicks" cols) (idx "spend" cols)
    (if in_columns "revenue" cols then Some (idx "revenue" cols) else None) row.

(** The numeric content of a canonical record, whatever its date. *)
Definition measures (r : CampaignRecord) : CampaignRecord := set_date (DRaw None) r.

(** What the normalizer makes of a coerced row [c], dates apart. *)
Definition normalized (c : Coerced) (r : CampaignRecord) : Prop :=
  campaign r = c_campaign c /\
  impressions r = guard 1 (c_impressions c) /\
  clicks r = guard 1 (c_clicks c) /\
  spend r = guard 0.01 (c_spend c) /\
  revenue r = c_revenue c /\
  ctr r = num_div (clicks r) (impressions r) /\
  cpc r = num_div (spend r) (clicks r) /\
  roas r = num_div (revenue r) (spend r).

(** The guard on one value: an exact zero becomes [v], anything else is
    kept. *)
Definition guarded (v a b : Q) : Prop :=
  (a == 0 -> b = v) /\ (~ a == 0 -> b = a).

(** A count: a non-negative whole number. *)
Definition whole_count (a : Q) : Prop :=
  exists n : Z, (0 <= n)%Z /\ a == inject_Z n.

(** The guard invariant as the specification words it. *)
Definition guard_bounds (r : CampaignRecord) : Prop :=
  exists i k s,
    impressions r = Some i /\ clicks r = Some k /\ spend r = Some s /\
    1 <= i /\ 1 <= k /\ 0.01 <= s.

(** What holds of the guarded fields of a record [r] made from the
    coerced row [c]. *)
Definition guard_outcome (c : Coerced) (r : CampaignRecord) : Prop :=
  exists i k s i' k' s',
    c_impressions c = Some i /\ c_clicks c = Some k /\ c_spend c = Some s /\
    impressions r = Some i' /\ clicks r = Some k' /\ spend r = Some s' /\
    guarded 1 i i' /\ guarded 1 k k' /\ guarded 0.01 s s' /\
    ~ i' == 0 /\ ~ k' == 0 /\ ~ s' == 0 /\
    (whole_count i -> 1 <= i') /\
    (whole_count k -> 1 <= k') /\
    (s == 0 \/ 0.01 <= s -> 0.01 <= s').



(** Removal of every dollar sign and comma, as the specification words
    step 3. *)
Definition strip_currency (s : string) : string :=
  string_of_list_ascii
    (List.filter (fun c => negb (Ascii.eqb c "$") && negb (Ascii.eqb c ","))
                 (list_ascii_of_string s)).

(** A row is numeric when impressions, clicks and spend all coerce. *)
Definition numeric_row (to_numeric_str : string -> num) (cols : list string)
    (row : list cell) : bool :=
  notna (to_numeric to_numeric_str (at_col (idx "impressions" cols) row)) &&
  notna (to_numeric to_numeric_str (at_col (idx "clicks" cols) row)) &&
  notna (clean_spend to_numeric_str (at_col (idx "spend" cols) row)).

(** The order of the keys of [groupby]: ascending text order. *)
Definition key_lt (a b : string) : Prop := String.compare a b = Lt.

(** The campaign [k] has a record in the table. *)
Definition occurs (k : string) (data : list CampaignRecord) : Prop :=
  exists r, In r data /\ campaign r = Some k.

(** The rolled-up values of campaign [k], from the records of the table. *)
Definition mean_roas (data : list CampaignRecord) (k : string) : num :=
  r_roas (rollup (List.filter (in_group k) data)).





(** The same order on the rows of [campaign_stats]. *)
Definition row_before (e e' : string * Rollup) : Prop :=
  r_revenue (snd e') < r_revenue (snd e) \/
  (r_revenue (snd e) == r_revenue (snd e') /\ key_lt (fst e) (fst e')).


(** ** Concrete tables *)

(** A [to_datetime] that raises on every value: dates stay as read. *)
Definition keep_dates (c : cell) : option stamp := None.


Definition five_columns : list string :=
  ["Campaign"; "Date"; "Impressions"; "Clicks"; "Spend"].

(** One row whose impressions, clicks and spend are all zero. *)
Definition raw_zeros : RawFrame :=
  mkFrame five_columns
          [[Some "CampaignX"; Some "2024-01-01"; Some "0"; Some "0"; Some "0"]].

(** One row that spends half a cent. *)
Definition raw_small_spend : RawFrame :=
  mkFrame five_columns
          [[Some "CampaignX"; Some "2024-01-01"; Some "100"; Some "10"; Some "0.005"]].


(** Scenario A of the specification. *)
Definition scenario_a : RawFrame :=
  mkFrame five_columns
          [[Some "CampaignX"; Some "2024-01-01"; Some "100"; Some "10"; Some "50"]].

(** Scenario E of the specification. *)
Definition scenario_e : RawFrame :=
  mkFrame five_columns
          [[Some "CampaignX"; Some "2024-01-01"; Some "100"; Some "10";
            Some "$1,250.00"]].

(** Scenario F of the specification: the second row has a click count
    that is not a number. *)
Definition scenario_f : RawFrame :=
  mkFrame five_columns
          [[Some "CampaignX"; Some "2024-01-01"; Some "100"; Some "10"; Some "50"];
           [Some "CampaignY"; Some "2024-01-02"; Some "200"; Some "many"; Some "80"];
           [Some "CampaignZ"; Some "2024-01-03"; Some "300"; Some "30"; Some "90"]].

(** The keys that the aggregator adds only for a non-empty rollup. *)
Definition selection_keys : list string :=
  ["best_campaign"; "best_roas"; "worst_campaign"; "worst_roas"; "top_5_campaigns"].

(** The canonical table with no record, as the normalizer returns it. *)
Definition empty_table : Table :=
  mkFrame ["campaign"; "date"; "impressions"; "clicks"; "spend"; "revenue";
           "ctr"; "cpc"; "roas"] [].

(** A [format] that renders every value as the empty text. *)
Definition blank_format (v : value) (spec : string) : outcome string := Ok "".

(** A record with 100 impressions, 10 clicks and a spend of 50, revenue
    synthesized. *)
Definition plain_record (k : string) : CampaignRecord :=
  mkRecord (Some k) (DRaw (Some "2024-01-01")) (Some 100) (Some 10) (Some 50)
           (Some (50 * 2.5)) (Some (10 / 100)) (Some (50 / 10))
           (Some (50 * 2.5 / 50)).

Definition canonical_columns : list string :=
  ["campaign"; "date"; "impressions"; "clicks"; "spend"; "revenue";
   "ctr"; "cpc"; "roas"].

(** Two campaigns with the same figures; campaign B comes first. *)
Definition raw_tie : RawFrame :=
  mkFrame five_columns
          [[Some "B"; Some "2024-01-01"; Some "100"; Some "10"; Some "50"];
           [Some "A"; Some "2024-01-01"; Some "100"; Some "10"; Some "50"]].

Definition tie_table : Table :=
  mkFrame canonical_columns [plain_record "B"; plain_record "A"].



(** Scenario D of the specification: three distinct campaigns. *)
Definition scenario_d : RawFrame :=
  mkFrame five_columns
          [[Some "East"; Some "2024-01-01"; Some "100"; Some "10"; Some "50"];
           [Some "North"; Some "2024-01-01"; Some "100"; Some "10"; Some "80"];
           [Some "West"; Some "2024-01-01"; Some "100"; Some "10"; Some "20"]].

(** ** Views of the extended development *)

(** The candidate names of the six canonical fields, as the six loops of
    [check_data_columns] list them. *)
Definition candidate_table : list (string * list string) :=
  [("campaign", ["Campaign_ID"; "campaign"; "Campaign"; "campaign_id"]);
   ("date", ["Date"; "date"; "timestamp"; "Date_Stamp"]);
   ("impressions", ["Impressions"; "impressions"; "views"; "Views"]);
   ("clicks", ["Clicks"; "clicks"; "click_count"]);
   ("spend", ["Acquisition_Cost"; "Spend"; "spend"; "cost"; "Cost"]);
   ("revenue", revenue_candidates)].

Definition candidates_of (std : string) : list string :=
  match List.find (fun e => String.eqb (fst e) std) candidate_table with
  | Some e => snd e
  | None => []
  end.

(** Some candidate name of the field [std] is in the header [cols]. *)
Definition resolvable (std : string) (cols : list string) : Prop :=
  exists c, In c (candidates_of std) /\ in_columns c cols = true.

(** The entry that one loop of the resolver adds. *)
Definition resolve_field (cols : list string) (e : string * list string)
    : list (string * string) :=
  match first_candidate (snd e) cols with
  | Some col => [(fst e, col)]
  | None => []
  end.


(** The fields that the normalizer reads as series. *)
Definition series_fields : list string :=
  ["spend"; "impressions"; "clicks"; "revenue"].

(** Number of columns of the header named [col]. *)
Definition occurrences (col : string) (cols : list string) : nat :=
  List.length (positions col cols).


(** A header in which the resolver renames Spend to spend although a
    spend column exists already. *)
Definition raw_two_spends : RawFrame :=
  mkFrame ["Campaign"; "Date"; "Impressions"; "Clicks"; "Spend"; "spend"]
          [[Some "CampaignX"; Some "2024-01-01"; Some "100"; Some "10"; Some "50";
            Some "60"]].



(** The keys of the totals and averages. *)
Definition global_keys : list string :=
  ["total_impressions"; "total_clicks"; "total_spend"; "total_revenue";
   "avg_ctr"; "avg_cpc"; "avg_roas"].

(** A mapped revenue column without a single number in it. *)
Definition raw_no_revenue_number : RawFrame :=
  mkFrame ["Campaign"; "Date"; "Impressions"; "Clicks"; "Spend"; "Revenue"]
          [[Some "CampaignX"; Some "2024-01-01"; Some "100"; Some "10"; Some "50";
            Some "n/a"]].

(** The canonical table of [raw_no_revenue_number]. *)
Definition null_roas_table : Table :=
  mkFrame canonical_columns
          [mkRecord (Some "CampaignX") (DRaw (Some "2024-01-01")) (Some 100)
                    (Some 10) (Some 50) None (Some (10 / 100)) (Some (50 / 10))
                    None].

(** The summary before the selections are added (source lines 100-107). *)
Definition global_summary (data : Table) : gmap string value :=
  <["avg_roas" := VFloat (col_mean (map roas (rows data)))]>
  (<["avg_cpc" := VFloat (col_mean (map cpc (rows data)))]>
  (<["avg_ctr" := VFloat (col_mean (map ctr (rows data)))]>
  (<["total_revenue" := VFloat (Some (col_sum (map revenue (rows data))))]>
  (<["total_spend" := VFloat (Some (col_sum (map spend (rows data))))]>
  (<["total_clicks" := VInt (py_int (col_sum (map clicks (rows data))))]>
  (<["total_impressions" := VInt (py_int (col_sum (map impressions (rows data))))]>
   ∅)))))).

(** The keys that the insight composer reads, in the order in which it
    reads them. *)
Definition insight_keys : list string :=
  ["total_impressions"; "total_clicks"; "total_spend"; "total_revenue";
   "avg_ctr"; "avg_cpc"; "best_campaign"; "best_roas"; "worst_campaign";
   "worst_roas"; "avg_roas"].

(** A value that can be multiplied by 100. *)
Definition is_number (v : value) : Prop :=
  match v with
  | VInt _ | VFloat _ => True
  | _ => False
  end.

Definition absent (s : gmap string value) (key : string) : bool :=
  if s !! key is None then true else false.

(** ** Chart collaborator: [create_performance_chart] *)

(** One row of [campaign_totals]: the summed impressions, clicks and
    revenue of a campaign (source line 143). *)
Record Totals : Type := mkTotals {
  t_impressions : Q;
  t_clicks : Q;
  t_revenue : Q
}.

Definition totals (g : list CampaignRecord) : Totals :=
  mkTotals (col_sum (map impressions g)) (col_sum (map clicks g))
           (col_sum (map revenue g)).

(** [data.groupby('campaign')[['impressions','clicks','revenue']].sum()] *)
Definition campaign_totals (data : list CampaignRecord) : list (string * Totals) :=
  map (fun k => (k, totals (List.filter (in_group k) data))) (group_keys data).

(** [DataFrame.nlargest(n, 'revenue')] on the totals: the first [n] rows
    of a stable sort by decreasing revenue. *)
Fixpoint insert_total (e : string * Totals) (l : list (string * Totals))
    : list (string * Totals) :=
  match l with
  | [] => [e]
  | e' :: l' =>
      if Qle_bool (t_revenue (snd e')) (t_revenue (snd e))
      then e :: l
      else e' :: insert_total e l'
  end.

Definition sort_totals (l : list (string * Totals)) : list (string * Totals) :=
  fold_right insert_total [] l.

Definition nlargest_totals (n : nat) (l : list (string * Totals))
    : list (string * Totals) :=
  firstn n (sort_totals l).

(** What is drawn: per series the bars as position and height, and the
    tick positions with their labels. *)
Record Chart : Type := mkChart {
  impression_bars : list (Q * Q);
  click_bars : list (Q * Q);
  revenue_bars : list (Q * Q);
  ticks : list (Q * string)
}.

(** [range(len(campaign_totals))] *)
Definition xrange (n : nat) : list Q := map (fun i => inject_Z (Z.of_nat i)) (seq 0 n).

Definition create_performance_chart (data : Table) (output_path : string)
    : outcome (string * Chart) :=
  do _ <- series "campaign" (columns data);
  let campaign_totals := campaign_totals (rows data) in
  let campaign_totals :=
    if Nat.ltb 15 (List.length campaign_totals)
    then nlargest_totals 15 campaign_totals
    else campaign_totals in
  let x := xrange (List.length campaign_totals) in
  let width := 0.25 in
  Ok (output_path,
      mkChart
        (combine (map (fun i => i - width) x)
                 (map (fun e => t_impressions (snd e)) campaign_totals))
        (combine x (map (fun e => t_clicks (snd e)) campaign_totals))
        (combine (map (fun i => i + width) x)
                 (map (fun e => t_revenue (snd e)) campaign_totals))
        (combine x (map fst campaign_totals))).

(** The campaigns that the chart shows, in the order of the bars. *)
Definition charted (c : Chart) : list string := map snd (ticks c).



Definition totals_before (e e' : string * Totals) : Prop :=
  t_revenue (snd e') < t_revenue (snd e) \/
  (t_revenue (snd e) == t_revenue (snd e') /\ key_lt (fst e) (fst e')).

(** Sixteen campaigns with the same figures. *)
Definition sixteen_table : Table :=
  mkFrame canonical_columns
    (map plain_record
         ["c16"; "c15"; "c14"; "c13"; "c12"; "c11"; "c10"; "c09";
          "c08"; "c07"; "c06"; "c05"; "c04"; "c03"; "c02"; "c01"]).

(** ** Report collaborator: [create_powerpoint_report] *)

(** What the function puts on one slide: the layout it picks, the title,
    the text of the second placeholder, the paragraphs it adds to the
    text frame and the picture. *)
Record Slide : Type := mkSlide {
  layout : nat;
  title : string;
  subtitle : option string;
  paragraphs : list string;
  picture : option string
}.

Section ReportCollaborator.

(** [format(v, spec)], as for the insight composer. *)
Variable format : value -> string -> outcome string.

(** [datetime.now().strftime("%B %d, %Y")] *)
Variable today : string.

(** The lines of the top list, numbered from [i] (source lines 206-208). *)
Fixpoint top_lines (i : Z) (d : list (string * Rollup)) : outcome (list string) :=
  match d with
  | [] => Ok []
  | (camp, stats) :: d' =>
      do rank <- format (VInt i) "";
      do name <- format (VStr camp) "";
      do revenue <- format (VFloat (Some (r_revenue stats))) ",.2f";
      do roas <- format (VFloat (r_roas stats)) ".2f";
      do rest <- top_lines (i + 1) d';
      Ok ((rank +:+ ". " +:+ name +:+ ": $" +:+ revenue +:+ " (ROAS "
           +:+ roas +:+ ")") :: rest)
  end.

Definition create_powerpoint_report (summary_stats : gmap string value)
    (insights : list string) (chart_path output_path : string)
    : outcome (string * list Slide) :=
  let slide1 := mkSlide 0 "Campaign Performance Report" (Some today) [] None in
  let slide2 := mkSlide 1 "Executive Summary" None
                        (map (fun i => "• " +:+ i) (firstn 4 insights)) None in
  let s := summary_stats in
  do impressions <- field format s "total_impressions" ",";
  do clicks <- field format s "total_clicks" ",";
  do spend <- field format s "total_spend" ",.2f";
  do revenue <- field format s "total_revenue" ",.2f";
  do avg_ctr <- getitem s "avg_ctr";
  do pct <- times100 avg_ctr;
  do pct <- format pct ".2f";
  do avg_cpc <- field format s "avg_cpc" ".2f";
  do avg_roas <- field format s "avg_roas" ".2f";
  let metrics :=
    ["Total Impressions: " +:+ impressions;
     "Total Clicks: " +:+ clicks;
     "Total Spend: $" +:+ spend;
     "Total Revenue: $" +:+ revenue;
     "Avg CTR: " +:+ pct +:+ "%";
     "Avg CPC: $" +:+ avg_cpc;
     "Avg ROAS: " +:+ avg_roas] in
  let slide3 := mkSlide 1 "Key Performance Indicators" None metrics None in
  let slide4 := mkSlide 5 "Campaign Performance Overview" None []
                        (Some chart_path) in
  match s !! "top_5_campaigns" with
  | None => Ok (output_path, [slide1; slide2; slide3; slide4])
  | Some (VDict d) =>
      do lines <- top_lines 1 d;
      let slide5 := mkSlide 1 "Top 5 Campaigns" None lines None in
      Ok (output_path, [slide1; slide2; slide3; slide4; slide5])
  | Some _ => Raised "AttributeError: items"
  end.

End ReportCollaborator.

(** The titles of the slides, in their order. *)
Definition slide_titles : list string :=
  ["Campaign Performance Report"; "Executive Summary";
   "Key Performance Indicators"; "Campaign Performance Overview";
   "Top 5 Campaigns"].

(** The top list of a summary, if it has one, is a dictionary. *)
Definition top_is_dict (s : gmap string value) : Prop :=
  forall v, s !! "top_5_campaigns" = Some v -> exists d, v = VDict d.

(** ** Entry point: [load_campaign_data] and [main] *)


Section EntryPoint.

(** [os.path.exists] and [pd.read_csv]; the latter gives the frame or the
    text of the exception it raises. *)
Variable file_exists : string -> bool.
Variable read_csv : string -> RawFrame + string.

Variable to_numeric_str : string -> num.
Variable to_datetime : cell -> option stamp.
Variable format : value -> string -> outcome string.
Variable today : string.

(** [output_dir / name] as text. *)
Variable join : string -> string -> string.



End EntryPoint.





(** * Properties *)

(** ** The normalizer as a pipeline over rows *)

(** Evaluate the right-hand side of an equation on a concrete table. *)
Ltac eval_rhs H :=
  match type of H with
  | _ = ?rhs => let v := eval vm_compute in rhs in
                change rhs with v in H
  end.

Lemma series_idx (col : string) (cols : list string) (i : nat) :
  series col cols = Ok i -> idx col cols = i.
Proof.
  unfold series, idx.
  destruct (positions col cols) as [|j [|j' l]]; intros H; inversion H.
  reflexivity.
Qed.

Lemma normalized_measures (c : Coerced) (x r : CampaignRecord) :
  normalized c x -> measures r = measures x -> normalized c r.
Proof.
  unfold normalized. intros Hx Hm.
  pose proof (f_equal campaign Hm) as H1.
  pose proof (f_equal impressions Hm) as H2.
  pose proof (f_equal clicks Hm) as H3.
  pose proof (f_equal spend Hm) as H4.
  pose proof (f_equal revenue Hm) as H5.
  pose proof (f_equal ctr Hm) as H6.
  pose proof (f_equal cpc Hm) as H7.
  pose proof (f_equal roas Hm) as H8.
  simpl in *. congruence.
Qed.

Lemma series_cases (col : string) (cols : list string) :
  (exists i, series col cols = Ok i) \/ (exists e, series col cols = Raised e).
Proof.
  unfold series. destruct (positions col cols) as [|j [|j' l]]; eauto.
Qed.

Lemma find_first {A : Type} (p : A -> bool) (l : list A) (c : A) :
  List.find p l = Some c ->
  exists before after,
    l = before ++ c :: after /\ Forall (fun x => p x = false) before /\ p c = true.
Proof.
  induction l as [|a l IH]; simpl; [discriminate|].
  destruct (p a) eqn:Ea; intros H.
  - inversion H; subst. exists [], l. auto.
  - destruct (IH H) as (before & after & -> & Hb & Hc).
    exists (a :: before), after. auto.
Qed.

Lemma find_all_false {A : Type} (p : A -> bool) (l : list A) :
  (forall x, In x l -> p x = false) -> List.find p l = None.
Proof.
  induction l as [|a l IH]; simpl; intros H; [reflexivity|].
  rewrite (H a) by auto. apply IH. auto.
Qed.

Lemma guard_some (v a : Q) :
  ~ v == 0 ->
  exists b, guard v (Some a) = Some b /\ guarded v a b /\ ~ b == 0.
Proof.
  intros Hv. unfold guard, num_eqb, guarded.
  destruct (Qeq_bool a 0) eqn:E.
  - apply Qeq_bool_iff in E. exists v. repeat split; auto. now intros [].
  - apply Qeq_bool_neq in E. exists a. repeat split; auto. now intros Hz.
Qed.

Lemma guarded_whole (a b : Q) :
  guarded 1 a b -> whole_count a -> 1 <= b.
Proof.
  intros [Hz Hnz] (n & Hn & Ha).
  destruct (Qeq_dec a 0) as [E|E].
  - rewrite (Hz E). apply Qle_refl.
  - rewrite (Hnz E), Ha.
    assert (n <> 0)%Z as Hne by (intros ->; now apply E).
    change 1 with (inject_Z 1). rewrite <- Zle_Qle. lia.
Qed.

Lemma complete_inv (c : Coerced) :
  complete c = true ->
  exists i k s, c_impressions c = Some i /\ c_clicks c = Some k /\ c_spend c = Some s.
Proof.
  unfold complete, notna.
  destruct (c_impressions c) as [i|], (c_clicks c) as [k|], (c_spend c) as [s|];
    try discriminate.
  intros _. now exists i, k, s.
Qed.

Lemma Forall2_filter_l {A B : Type} (p : A -> bool) (R : A -> B -> Prop)
    (l : list A) (l' : list B) :
  Forall2 R (List.filter p l) l' ->
  Forall2 (fun a b => p a = true /\ R a b) (List.filter p l) l'.
Proof.
  revert l'. induction l as [|a l IH]; simpl; intros l' H.
  - inversion H. constructor.
  - destruct (p a) eqn:E; auto.
    inversion H; subst. constructor; auto.
Qed.




Lemma filter_map_filter {A B : Type} (f : A -> B) (p : B -> bool) (l : list A) :
  List.filter p (map f (List.filter (fun a => p (f a)) l)) = List.filter p (map f l).
Proof.
  induction l as [|a l IH]; simpl; [reflexivity|].
  destruct (p (f a)) eqn:E; simpl; rewrite ?E, IH; reflexivity.
Qed.

Lemma filter_idem {A : Type} (p : A -> bool) (l : list A) :
  List.filter p (List.filter p l) = List.filter p l.
Proof.
  induction l as [|a l IH]; simpl; [reflexivity|].
  destruct (p a) eqn:E; simpl; rewrite ?E, IH; reflexivity.
Qed.

Lemma str_replace_strip (s : string) :
  str_replace "," "" (str_replace "$" "" s) = strip_currency s.
Proof.
  unfold strip_currency. induction s as [|c s IH]; simpl; [reflexivity|].
  destruct (Ascii.eqb c "$") eqn:Ed; simpl.
  - exact IH.
  - destruct (Ascii.eqb c ",") eqn:Ec; simpl; rewrite IH; reflexivity.
Qed.

Lemma apply_mapping_app (m : list (string * string)) (std orig : string)
    (cols : list string) :
  apply_mapping (m ++ [(std, orig)]) cols = rename orig std (apply_mapping m cols).
Proof.
  unfold apply_mapping. now rewrite fold_left_app.
Qed.



Section NormalizerFacts.

Variable to_numeric_str : string -> num.
Variable to_datetime : cell -> option stamp.

Let clean := clean_and_prepare_data to_numeric_str to_datetime.

Lemma clean_rows (raw : RawFrame) (cm : list (string * string)) (t : Table) :
  clean raw cm = Ok t ->
  let cols := apply_mapping cm (columns raw) in
  missing_required cols = None /\
  rows t = convert_dates to_datetime
             (Nat.eqb (List.length (positions "date" cols)) 1)
             (map derive (map guard_row
                (List.filter complete (map (coerced to_numeric_str cols) (rows raw))))).
Proof.
  intros H cols. unfold clean, clean_and_prepare_data in H. fold cols in H.
  destruct (missing_required cols) as [c|]; [discriminate|].
  split; [reflexivity|].
  destruct (series "spend" cols) as [i_s| |] eqn:Es; try discriminate.
  destruct (series "impressions" cols) as [i_i| |] eqn:Ei; try discriminate.
  destruct (series "clicks" cols) as [i_c| |] eqn:Ec; try discriminate.
  apply series_idx in Es, Ei, Ec. subst.
  unfold coerced. simpl in H.
  destruct (in_columns "revenue" cols).
  - destruct (series "revenue" cols) as [i_r| |] eqn:Er; try discriminate.
    apply series_idx in Er. subst. simpl in H. inversion H. reflexivity.
  - simpl in H. inversion H. reflexivity.
Qed.

Lemma convert_dates_pointwise (b : bool) (l : list CampaignRecord) :
  Forall2 (fun x r => measures r = measures x) l (convert_dates to_datetime b l).
Proof.
  unfold convert_dates.
  destruct (b && forallb (converts to_datetime) l).
  - induction l as [|x l IH]; simpl; constructor; auto.
    destruct (to_datetime (raw_date x)); reflexivity.
  - induction l as [|x l IH]; constructor; auto.
Qed.

(** Every record of the canonical table comes from one raw row that
    coerces completely, in the order of the raw rows. *)
Lemma clean_normalized (raw : RawFrame) (cm : list (string * string)) (t : Table) :
  clean raw cm = Ok t ->
  let cols := apply_mapping cm (columns raw) in
  Forall2 (fun row r => normalized (coerced to_numeric_str cols row) r)
          (List.filter (fun row => complete (coerced to_numeric_str cols row))
                       (rows raw))
          (rows t).
Proof.
  intros H cols. destruct (clean_rows raw cm t H) as [_ Hrows].
  fold cols in Hrows. rewrite Hrows. clear Hrows H.
  set (b := Nat.eqb _ 1). clearbody b.
  set (f := coerced to_numeric_str cols).
  assert (Hp : forall l, Forall2 (fun row r => normalized (f row) r)
                 (List.filter (fun row => complete (f row)) l)
                 (map derive (map guard_row (List.filter complete (map f l))))).
  { induction l as [|row l IH]; simpl; [constructor|].
    destruct (complete (f row)); simpl; [constructor|]; auto.
    repeat split. }
  specialize (Hp (rows raw)).
  pose proof (convert_dates_pointwise b
    (map derive (map guard_row (List.filter complete (map f (rows raw)))))) as Hc.
  revert Hp Hc.
  generalize (convert_dates to_datetime b
    (map derive (map guard_row (List.filter complete (map f (rows raw)))))).
  generalize (map derive (map guard_row (List.filter complete (map f (rows raw))))).
  generalize (List.filter (fun row => complete (f row)) (rows raw)).
  intros l1 l2 l3 H12. revert l3.
  induction H12 as [|row x l1 l2 Hx H12 IH]; intros l3 H23; inversion H23; subst.
  - constructor.
  - constructor; auto. eapply normalized_measures; eauto.
Qed.

(** C1 (as amended). Every record of the canonical table comes from a
    row whose impressions, clicks and spend all coerced to numbers; the
    guard, applied after the null rows are dropped, turns an
    impressions or clicks value of exactly 0 into 1 and a spend of
    exactly 0 into 0.01 and keeps every other value, so the three
    fields are never null and never zero.  Impressions and clicks are
    at least 1 when the coerced value is a non-negative whole number,
    and spend is at least 0.01 when the coerced spend is 0 or at least
    0.01. *)
Theorem guard_replaces_exact_zeros (raw : RawFrame) (cm : list (string * string))
    (t : Table) :
  clean raw cm = Ok t ->
  let cols := apply_mapping cm (columns raw) in
  Forall2 (fun row r => guard_outcome (coerced to_numeric_str cols row) r)
          (List.filter (fun row => complete (coerced to_numeric_str cols row))
                       (rows raw))
          (rows t).
Proof.
  intros H cols. pose proof (clean_normalized raw cm t H) as Hn.
  fold cols in Hn. apply Forall2_filter_l in Hn.
  eapply Forall2_impl; [|exact Hn]. clear Hn.
  intros row r [Hc (_ & Hi & Hk & Hs & _)].
  destruct (complete_inv _ Hc) as (i & k & s & Ei & Ek & Es).
  rewrite Ei in Hi. rewrite Ek in Hk. rewrite Es in Hs.
  destruct (guard_some 1 i) as (i' & Gi & Hgi & Hnzi); [easy|].
  destruct (guard_some 1 k) as (k' & Gk & Hgk & Hnzk); [easy|].
  destruct (guard_some 0.01 s) as (s' & Gs & Hgs & Hnzs); [easy|].
  exists i, k, s, i', k', s'.
  repeat split; try congruence; try (apply Hgi); try (apply Hgk); try (apply Hgs).
  - now apply (guarded_whole i i').
  - now apply (guarded_whole k k').
  - intros [Hz|Hle].
    + destruct Hgs as [Hgs _]. rewrite (Hgs Hz). apply Qle_refl.
    + destruct (Qeq_dec s 0) as [Hz|Hz].
      * destruct Hgs as [Hgs _]. rewrite (Hgs Hz). apply Qle_refl.
      * destruct Hgs as [_ Hgs]. now rewrite (Hgs Hz).
Qed.

Lemma clean_on_rows (raw : RawFrame) (cm : list (string * string)) (t : Table)
    (rows' : list (list cell)) :
  clean raw cm = Ok t ->
  let cols := apply_mapping cm (columns raw) in
  clean (mkFrame (columns raw) rows') cm =
  Ok (mkFrame (columns t)
        (convert_dates to_datetime
           (Nat.eqb (List.length (positions "date" cols)) 1)
           (map derive (map guard_row
              (List.filter complete (map (coerced to_numeric_str cols) rows')))))).
Proof.
  intros H cols. unfold clean, clean_and_prepare_data in *. simpl columns.
  fold cols in H. fold cols.
  destruct (missing_required cols) as [c|]; [discriminate|].
  destruct (series "spend" cols) as [i_s| |] eqn:Es; try discriminate.
  destruct (series "impressions" cols) as [i_i| |] eqn:Ei; try discriminate.
  destruct (series "clicks" cols) as [i_c| |] eqn:Ec; try discriminate.
  apply series_idx in Es, Ei, Ec. subst.
  unfold coerced. simpl in *.
  destruct (in_columns "revenue" cols).
  - destruct (series "revenue" cols) as [i_r| |] eqn:Er; try discriminate.
    apply series_idx in Er. subst. simpl in *. inversion H. reflexivity.
  - simpl in *. inversion H. reflexivity.
Qed.


(** C6. A row whose impressions, clicks or spend does not coerce to a
    number has no record in the canonical table; the rows where all
    three coerce are retained, one record each, in their order.  The
    table, and with it every total, average, rollup and selection
    computed from it, is the one obtained from the raw rows without the
    dropped ones. *)
Theorem uncoercible_rows_are_dropped (raw : RawFrame) (cm : list (string * string))
    (t : Table) :
  clean raw cm = Ok t ->
  let cols := apply_mapping cm (columns raw) in
  let kept := List.filter (numeric_row to_numeric_str cols) (rows raw) in
  Forall2 (fun row r => normalized (coerced to_numeric_str cols row) r)
          kept (rows t) /\
  List.length (rows t) = List.length kept /\
  clean (mkFrame (columns raw) kept) cm = Ok t.
Proof.
  intros H cols kept.
  pose proof (clean_normalized raw cm t H) as Hn. fold cols in Hn.
  change (List.filter (fun row => complete (coerced to_numeric_str cols row))
                      (rows raw)) with kept in Hn.
  split; [exact Hn|]. split.
  - symmetry. eapply Forall2_length; eauto.
  - rewrite (clean_on_rows raw cm t kept H). fold cols.
    destruct (clean_rows raw cm t H) as [_ Hrows]. fold cols in Hrows.
    unfold kept.
    change (numeric_row to_numeric_str cols)
      with (fun row => complete (coerced to_numeric_str cols row)).
    rewrite filter_map_filter, <- Hrows. now destruct t.
Qed.

(** The spend of every record is coerced from the textual form of its
    cell with every dollar sign and comma removed. *)
Lemma spend_text_is_stripped (raw : RawFrame) (cm : list (string * string))
    (t : Table) :
  clean raw cm = Ok t ->
  let cols := apply_mapping cm (columns raw) in
  Forall2 (fun row r =>
             spend r = guard 0.01
               (to_numeric_str
                  (strip_currency (astype_str (at_col (idx "spend" cols) row)))))
          (List.filter (numeric_row to_numeric_str cols) (rows raw)) (rows t).
Proof.
  intros H cols.
  pose proof (clean_normalized raw cm t H) as Hn. fold cols in Hn.
  eapply Forall2_impl; [|exact Hn].
  intros row r (_ & _ & _ & Hs & _). rewrite Hs.
  unfold coerced, coerce_row, clean_spend. simpl.
  now rewrite str_replace_strip.
Qed.



End NormalizerFacts.


Lemma guard_replaces_exact_zeros_witness :
  exists t,
    clean_and_prepare_data parse_decimal keep_dates raw_zeros
      (check_data_columns raw_zeros) = Ok t /\
    Forall2 (fun row r =>
               guard_outcome
                 (coerced parse_decimal
                    (apply_mapping (check_data_columns raw_zeros) (columns raw_zeros))
                    row) r)
            (rows raw_zeros) (rows t).
Proof.
  eexists. split; [reflexivity|].
  exact (guard_replaces_exact_zeros parse_decimal keep_dates raw_zeros
           (check_data_columns raw_zeros) _ eq_refl).
Defined.

(** C1 (as stated) fails: a spend of half a cent is kept as it is, below
    the bound of one cent. *)
Lemma small_spend_stays_below_one_cent :
  exists t,
    clean_and_prepare_data parse_decimal keep_dates raw_small_spend
      (check_data_columns raw_small_spend) = Ok t /\
    ~ Forall guard_bounds (rows t).
Proof.
  eexists. split; [reflexivity|].
  intros H. inversion H as [|r l Hr _]; subst.
  destruct Hr as (i & k & s & _ & _ & Hs & _ & _ & Hle).
  inversion Hs; subst. vm_compute in Hle. now apply Hle.
Qed.



Lemma uncoercible_rows_are_dropped_witness :
  exists t,
    clean_and_prepare_data parse_decimal keep_dates scenario_f
      (check_data_columns scenario_f) = Ok t /\
    let cols := apply_mapping (check_data_columns scenario_f) (columns scenario_f) in
    let kept := List.filter (numeric_row parse_decimal cols) (rows scenario_f) in
    Forall2 (fun row r => normalized (coerced parse_decimal cols row) r)
            kept (rows t) /\
    List.length (rows t) = List.length kept /\
    clean_and_prepare_data parse_decimal keep_dates
      (mkFrame (columns scenario_f) kept) (check_data_columns scenario_f) = Ok t.
Proof.
  eexists. split; [reflexivity|].
  exact (uncoercible_rows_are_dropped parse_decimal keep_dates scenario_f
           (check_data_columns scenario_f) _ eq_refl).
Defined.

(** Scenario F: the row with the non-numeric click count is absent from
    the canonical table, the other two are present. *)
Example scenario_f_rows :
  exists t,
    clean_and_prepare_data parse_decimal keep_dates scenario_f
      (check_data_columns scenario_f) = Ok t /\
    map campaign (rows t) = [Some "CampaignX"; Some "CampaignZ"].
Proof.
  eexists. split; reflexivity.
Qed.



(** C8. Before coercion every dollar sign and comma is removed from the
    textual form of the spend: the two replacements of the source amount
    to that removal, and the spend of every record is coerced from the
    stripped text.  On the table of scenario E the spend "$1,250.00" is
    read as 1250 and its record is retained. *)
Theorem spend_is_stripped_before_coercion :
  (forall s, str_replace "," "" (str_replace "$" "" s) = strip_currency s) /\
  (forall to_numeric_str to_datetime raw cm t,
      clean_and_prepare_data to_numeric_str to_datetime raw cm = Ok t ->
      let cols := apply_mapping cm (columns raw) in
      Forall2 (fun row r =>
                 spend r = guard 0.01
                   (to_numeric_str
                      (strip_currency (astype_str (at_col (idx "spend" cols) row)))))
              (List.filter (numeric_row to_numeric_str cols) (rows raw))
              (rows t)) /\
  strip_currency "$1,250.00" = "1250.00" /\
  (forall to_datetime,
      exists t r s,
        clean_and_prepare_data parse_decimal to_datetime scenario_e
          (check_data_columns scenario_e) = Ok t /\
        rows t = [r] /\ spend r = Some s /\ s == 1250).
Proof.
  split; [exact str_replace_strip|].
  split; [exact spend_text_is_stripped|].
  split; [reflexivity|].
  intros td.
  assert (Hok : exists t, clean_and_prepare_data parse_decimal td scenario_e
                            (check_data_columns scenario_e) = Ok t)
    by (eexists; reflexivity).
  destruct Hok as [t Ht]. exists t.
  pose proof (clean_normalized parse_decimal td scenario_e _ t Ht) as Hn.
  simpl in Hn. inversion Hn as [|row r l l' Hr Hl Erow Et]; subst.
  inversion Hl; subst.
  destruct Hr as (_ & _ & _ & Hs & _).
  eval_rhs Hs.
  exists r. eexists.
  split; [exact Ht|]. split; [now symmetry|]. split; [exact Hs|reflexivity].
Qed.

Lemma spend_is_stripped_before_coercion_witness :
  exists t,
    clean_and_prepare_data parse_decimal keep_dates scenario_e
      (check_data_columns scenario_e) = Ok t /\
    Forall2 (fun row r =>
               spend r = guard 0.01
                 (parse_decimal
                    (strip_currency
                       (astype_str
                          (at_col (idx "spend"
                             (apply_mapping (check_data_columns scenario_e)
                                (columns scenario_e))) row)))))
            (rows scenario_e) (rows t).
Proof.
  eexists. split; [reflexivity|].
  exact (proj1 (proj2 spend_is_stripped_before_coercion) parse_decimal keep_dates
           scenario_e (check_data_columns scenario_e) _ eq_refl).
Defined.

(** ** The aggregator and the insight composer *)

Lemma bind_ok {A B : Type} (m : outcome A) (k : A -> outcome B) (b : B) :
  bind m k = Ok b -> exists a, m = Ok a /\ k a = Ok b.
Proof.
  destruct m; simpl; intros H; try discriminate. eauto.
Qed.

Ltac bind_inv H :=
  repeat (apply bind_ok in H; let a := fresh "a" in let E := fresh "E" in
          destruct H as (a & E & H)).

Lemma field_ok (format : value -> string -> outcome string)
    (s : gmap string value) (key spec str : string) :
  field format s key spec = Ok str -> exists v, s !! key = Some v.
Proof.
  unfold field, getitem. intros H.
  destruct (s !! key) as [v|]; [eauto|discriminate].
Qed.

(** The composer needs the four best and worst entries. *)
Lemma generate_insights_needs (format : value -> string -> outcome string)
    (s : gmap string value) (l : list string) :
  generate_insights format s = Ok l ->
  Forall (fun key => exists v, s !! key = Some v)
         ["best_campaign"; "best_roas"; "worst_campaign"; "worst_roas"].
Proof.
  unfold generate_insights. intros H. bind_inv H.
  repeat constructor; eapply field_ok; eassumption.
Qed.

(** C7. On a canonical table without records the aggregator returns a
    summary in which best_campaign, best_roas, worst_campaign, worst_roas
    and top_5_campaigns are absent; the insight composer raises on that
    summary, and on any summary that lacks one of the four best and
    worst entries, instead of returning insights. *)
Theorem empty_table_has_no_selection (data : Table) (i : nat) :
  rows data = [] ->
  series "campaign" (columns data) = Ok i ->
  exists s,
    calculate_summary_stats data = Ok s /\
    Forall (fun key => s !! key = None) selection_keys /\
    (forall format l, generate_insights format s <> Ok l) /\
    (forall format,
        (forall v spec, exists str, format v spec = Ok str) ->
        generate_insights format s = Raised "KeyError: best_campaign") /\
    (forall format (s' : gmap string value) key,
        In key ["best_campaign"; "best_roas"; "worst_campaign"; "worst_roas"] ->
        s' !! key = None ->
        forall l, generate_insights format s' <> Ok l).
Proof.
  intros Hrows Hcol. unfold calculate_summary_stats. rewrite Hrows, Hcol. simpl.
  eexists. split; [reflexivity|].
  assert (Hneeds : forall format (s' : gmap string value) key,
             In key ["best_campaign"; "best_roas"; "worst_campaign"; "worst_roas"] ->
             s' !! key = None ->
             forall l, generate_insights format s' <> Ok l).
  { intros format s' key Hin Hnone l H.
    pose proof (generate_insights_needs format s' l H) as Hall.
    rewrite Forall_forall in Hall. destruct (Hall key Hin) as [v Hv].
    congruence. }
  split; [|split; [|split; [|exact Hneeds]]].
  - repeat constructor.
  - intros format l. apply (Hneeds format _ "best_campaign"); [simpl; tauto|].
    reflexivity.
  - intros format Htotal. unfold generate_insights, field, getitem.
    repeat match goal with
           | |- context [@lookup _ _ _ _ ?k ?m] =>
               let v := eval vm_compute in (m !! k) in
               change (m !! k) with v
           end.
    repeat match goal with
           | |- context [format ?v ?spec] =>
               let str := fresh "str" in let E := fresh "E" in
               destruct (Htotal v spec) as [str E]; rewrite E; clear E
           | _ => progress simpl
           end.
    reflexivity.
Qed.

Lemma empty_table_has_no_selection_witness :
  rows empty_table = [] /\
  series "campaign" (columns empty_table) = Ok 0%nat /\
  exists s,
    calculate_summary_stats empty_table = Ok s /\
    Forall (fun key => s !! key = None) selection_keys /\
    generate_insights blank_format s = Raised "KeyError: best_campaign".
Proof.
  split; [reflexivity|]. split; [reflexivity|].
  destruct (empty_table_has_no_selection empty_table 0 eq_refl eq_refl)
    as (s & Hs & Hkeys & _ & Hraise & _).
  exists s. split; [exact Hs|]. split; [exact Hkeys|].
  apply Hraise. intros v spec. now exists "".
Defined.

(** ** Keys of the rollup *)

Lemma key_lt_trans (a b c : string) : key_lt a b -> key_lt b c -> key_lt a c.
Proof.
  unfold key_lt. intros H1 H2.
  apply String_as_OT.cmp_lt in H1, H2. apply String_as_OT.cmp_lt.
  eapply String_as_OT.lt_trans; eauto.
Qed.

Lemma key_lt_irrefl (a : string) : ~ key_lt a a.
Proof.
  unfold key_lt. intros H. apply String_as_OT.cmp_lt in H.
  apply (String_as_OT.lt_not_eq a a H). reflexivity.
Qed.

Lemma compare_gt_key_lt (a b : string) : String.compare a b = Gt -> key_lt b a.
Proof.
  unfold key_lt. intros H. rewrite String.compare_antisym, H. reflexivity.
Qed.

Lemma In_insert_key (x k : string) (ks : list string) :
  In x (insert_key k ks) <-> x = k \/ In x ks.
Proof.
  induction ks as [|k' ks IH]; simpl.
  - intuition.
  - destruct (String.compare k k') eqn:E; simpl.
    + apply String.compare_eq_iff in E. subst. intuition.
    + intuition.
    + rewrite IH. intuition.
Qed.

Lemma insert_key_sorted (k : string) (ks : list string) :
  StronglySorted key_lt ks -> StronglySorted key_lt (insert_key k ks).
Proof.
  induction ks as [|k' ks IH]; simpl; intros H.
  - repeat constructor.
  - apply StronglySorted_inv in H. destruct H as [Hs Hall].
    destruct (String.compare k k') eqn:E.
    + now constructor.
    + constructor; [now constructor|].
      constructor; [exact E|].
      eapply Forall_impl; [|exact Hall]. intros a Ha.
      eapply key_lt_trans; eauto.
    + constructor; [auto|].
      apply Forall_forall. intros x Hx. apply In_insert_key in Hx.
      destruct Hx as [->|Hx].
      * now apply compare_gt_key_lt.
      * rewrite Forall_forall in Hall. auto.
Qed.

Lemma group_keys_sorted (data : list CampaignRecord) :
  StronglySorted key_lt (group_keys data).
Proof.
  induction data as [|r data IH]; simpl; [constructor|].
  destruct (campaign r); [now apply insert_key_sorted|exact IH].
Qed.

Lemma In_group_keys (k : string) (data : list CampaignRecord) :
  In k (group_keys data) <-> occurs k data.
Proof.
  unfold occurs. induction data as [|r data IH]; simpl.
  - split; [tauto|]. now intros (r & [] & _).
  - destruct (campaign r) as [k'|] eqn:E.
    + rewrite In_insert_key, IH. split.
      * intros [->|(r' & Hin & Hr')]; eauto.
      * intros (r' & [<-|Hin] & Hr'); [left; congruence|eauto].
    + rewrite IH. split.
      * intros (r' & Hin & Hr'); eauto.
      * intros (r' & [<-|Hin] & Hr'); [congruence|eauto].
Qed.

Lemma sorted_NoDup (ks : list string) : StronglySorted key_lt ks -> NoDup ks.
Proof.
  induction 1 as [|k ks Hs IH Hall]; constructor; auto.
  intros Hin. rewrite Forall_forall in Hall.
  exact (key_lt_irrefl k (Hall k Hin)).
Qed.

Lemma sorted_app (l1 l2 : list string) :
  StronglySorted key_lt (l1 ++ l2) ->
  forall a b, In a l1 -> In b l2 -> key_lt a b.
Proof.
  induction l1 as [|x l1 IH]; simpl; intros H a b Ha Hb; [contradiction|].
  apply StronglySorted_inv in H. destruct H as [Hs Hall].
  destruct Ha as [<-|Ha]; [|eauto].
  rewrite Forall_forall in Hall. apply Hall. apply in_or_app. now right.
Qed.

Lemma stats_keys (data : list CampaignRecord) :
  map fst (campaign_stats data) = group_keys data.
Proof.
  unfold campaign_stats. rewrite map_map. simpl. apply map_id.
Qed.

Lemma In_stats (k : string) (ro : Rollup) (data : list CampaignRecord) :
  In (k, ro) (campaign_stats data) <->
  occurs k data /\ ro = rollup (List.filter (in_group k) data).
Proof.
  unfold campaign_stats. rewrite in_map_iff, <- In_group_keys. split.
  - intros (k' & E & Hin). inversion E; subst. auto.
  - intros [Hin ->]. eauto.
Qed.

(** ** First maximum and first minimum *)

Lemma idxmax_from_spec (l : list (string * num)) :
  forall b v k, idxmax_from b v l = k ->
    (k = b /\ forall k' w, In (k', Some w) l -> w <= v) \/
    (exists pre w post,
        l = pre ++ (k, Some w) :: post /\ v < w /\
        (forall k' w', In (k', Some w') pre -> w' < w) /\
        (forall k' w', In (k', Some w') post -> w' <= w)).
Proof.
  induction l as [|[k1 [w1|]] l IH]; simpl; intros b v k H.
  - left. split; [auto|]. intros ? ? [].
  - destruct (Qle_bool w1 v) eqn:E.
    + apply Qle_bool_iff in E.
      destruct (IH _ _ _ H) as [[-> Hall]|(pre & w & post & -> & Hv & Hpre & Hpost)].
      * left. split; [reflexivity|].
        intros k' w' [Heq|Hin]; [inversion Heq; subst; exact E|eauto].
      * right. exists ((k1, Some w1) :: pre), w, post.
        repeat split; auto.
        intros k' w' [Heq|Hin]; [inversion Heq; subst; lra|eauto].
    + assert (v < w1) as Hlt.
      { apply Qnot_le_lt. intros Hle. apply Qle_bool_iff in Hle. congruence. }
      destruct (IH _ _ _ H) as [[-> Hall]|(pre & w & post & -> & Hv & Hpre & Hpost)].
      * right. exists [], w1, l. repeat split; auto. intros ? ? [].
      * right. exists ((k1, Some w1) :: pre), w, post.
        repeat split; auto; [lra|].
        intros k' w' [Heq|Hin]; [inversion Heq; subst; exact Hv|eauto].
  - destruct (IH _ _ _ H) as [[-> Hall]|(pre & w & post & -> & Hv & Hpre & Hpost)].
    + left. split; [reflexivity|].
      intros k' w' [Heq|Hin]; [discriminate|eauto].
    + right. exists ((k1, None) :: pre), w, post.
      repeat split; auto.
      intros k' w' [Heq|Hin]; [discriminate|eauto].
Qed.

Lemma idxmax_spec (l : list (string * num)) (k : string) :
  idxmax l = Some k ->
  exists pre v post,
    l = pre ++ (k, Some v) :: post /\
    (forall k' w, In (k', Some w) pre -> w < v) /\
    (forall k' w, In (k', Some w) post -> w <= v).
Proof.
  induction l as [|[k1 [w1|]] l IH]; simpl; intros H; [discriminate| |].
  - inversion H as [H'].
    destruct (idxmax_from_spec _ _ _ _ H')
      as [[-> Hall]|(pre & w & post & -> & Hv & Hpre & Hpost)].
    + exists [], w1, l. rewrite H'. repeat split; auto. intros ? ? [].
    + exists ((k1, Some w1) :: pre), w, post. rewrite H'.
      repeat split; auto.
      intros k' w' [Heq|Hin]; [inversion Heq; subst; exact Hv|eauto].
  - destruct (IH H) as (pre & v & post & -> & Hpre & Hpost).
    exists ((k1, None) :: pre), v, post. repeat split; auto.
    intros k' w' [Heq|Hin]; [discriminate|eauto].
Qed.

Lemma idxmax_exists (l : list (string * num)) :
  (exists k v, In (k, Some v) l) -> exists k, idxmax l = Some k.
Proof.
  induction l as [|[k1 [w1|]] l IH]; simpl; intros (k & v & Hin).
  - contradiction.
  - eauto.
  - destruct Hin as [Heq|Hin]; [discriminate|]. apply IH. eauto.
Qed.

Lemma idxmin_from_spec (l : list (string * num)) :
  forall b v k, idxmin_from b v l = k ->
    (k = b /\ forall k' w, In (k', Some w) l -> v <= w) \/
    (exists pre w post,
        l = pre ++ (k, Some w) :: post /\ w < v /\
        (forall k' w', In (k', Some w') pre -> w < w') /\
        (forall k' w', In (k', Some w') post -> w <= w')).
Proof.
  induction l as [|[k1 [w1|]] l IH]; simpl; intros b v k H.
  - left. split; [auto|]. intros ? ? [].
  - destruct (Qle_bool v w1) eqn:E.
    + apply Qle_bool_iff in E.
      destruct (IH _ _ _ H) as [[-> Hall]|(pre & w & post & -> & Hv & Hpre & Hpost)].
      * left. split; [reflexivity|].
        intros k' w' [Heq|Hin]; [inversion Heq; subst; exact E|eauto].
      * right. exists ((k1, Some w1) :: pre), w, post.
        repeat split; auto.
        intros k' w' [Heq|Hin]; [inversion Heq; subst; lra|eauto].
    + assert (w1 < v) as Hlt.
      { apply Qnot_le_lt. intros Hle. apply Qle_bool_iff in Hle. congruence. }
      destruct (IH _ _ _ H) as [[-> Hall]|(pre & w & post & -> & Hv & Hpre & Hpost)].
      * right. exists [], w1, l. repeat split; auto. intros ? ? [].
      * right. exists ((k1, Some w1) :: pre), w, post.
        repeat split; auto; [lra|].
        intros k' w' [Heq|Hin]; [inversion Heq; subst; exact Hv|eauto].
  - destruct (IH _ _ _ H) as [[-> Hall]|(pre & w & post & -> & Hv & Hpre & Hpost)].
    + left. split; [reflexivity|].
      intros k' w' [Heq|Hin]; [discriminate|eauto].
    + right. exists ((k1, None) :: pre), w, post.
      repeat split; auto.
      intros k' w' [Heq|Hin]; [discriminate|eauto].
Qed.

Lemma idxmin_spec (l : list (string * num)) (k : string) :
  idxmin l = Some k ->
  exists pre v post,
    l = pre ++ (k, Some v) :: post /\
    (forall k' w, In (k', Some w) pre -> v < w) /\
    (forall k' w, In (k', Some w) post -> v <= w).
Proof.
  induction l as [|[k1 [w1|]] l IH]; simpl; intros H; [discriminate| |].
  - inversion H as [H'].
    destruct (idxmin_from_spec _ _ _ _ H')
      as [[-> Hall]|(pre & w & post & -> & Hv & Hpre & Hpost)].
    + exists [], w1, l. rewrite H'. repeat split; auto. intros ? ? [].
    + exists ((k1, Some w1) :: pre), w, post. rewrite H'.
      repeat split; auto.
      intros k' w' [Heq|Hin]; [inversion Heq; subst; exact Hv|eauto].
  - destruct (IH H) as (pre & v & post & -> & Hpre & Hpost).
    exists ((k1, None) :: pre), v, post. repeat split; auto.
    intros k' w' [Heq|Hin]; [discriminate|eauto].
Qed.

Lemma idxmin_exists (l : list (string * num)) :
  (exists k v, In (k, Some v) l) -> exists k, idxmin l = Some k.
Proof.
  induction l as [|[k1 [w1|]] l IH]; simpl; intros (k & v & Hin).
  - contradiction.
  - eauto.
  - destruct Hin as [Heq|Hin]; [discriminate|]. apply IH. eauto.
Qed.

(** On a list whose keys ascend, an entry after the selected one has a
    greater key. *)
Lemma keys_after (pre post : list (string * num)) (k k' : string) (v w : num) :
  StronglySorted key_lt (map fst (pre ++ (k, v) :: post)) ->
  In (k', w) post -> key_lt k k'.
Proof.
  rewrite map_app. simpl. intros Hs Hin.
  apply (sorted_app (map fst pre ++ [k]) (map fst post)).
  - now rewrite <- app_assoc.
  - apply in_or_app. right. now left.
  - now apply (in_map fst) in Hin.
Qed.

Lemma first_max_sorted (l : list (string * num)) (k : string) :
  StronglySorted key_lt (map fst l) ->
  idxmax l = Some k ->
  exists v, In (k, Some v) l /\
    forall k' w, In (k', Some w) l ->
      w <= v /\ (w == v -> k' = k \/ key_lt k k').
Proof.
  intros Hs H. destruct (idxmax_spec l k H) as (pre & v & post & -> & Hpre & Hpost).
  exists v. split; [apply in_or_app; right; now left|].
  intros k' w Hin. apply in_app_or in Hin. destruct Hin as [Hin|[Heq|Hin]].
  - pose proof (Hpre _ _ Hin). split; [lra|]. intros; lra.
  - inversion Heq; subst. split; [lra|]. now left.
  - split; [eauto|]. intros _. right. eapply keys_after; eauto.
Qed.

Lemma first_min_sorted (l : list (string * num)) (k : string) :
  StronglySorted key_lt (map fst l) ->
  idxmin l = Some k ->
  exists v, In (k, Some v) l /\
    forall k' w, In (k', Some w) l ->
      v <= w /\ (w == v -> k' = k \/ key_lt k k').
Proof.
  intros Hs H. destruct (idxmin_spec l k H) as (pre & v & post & -> & Hpre & Hpost).
  exists v. split; [apply in_or_app; right; now left|].
  intros k' w Hin. apply in_app_or in Hin. destruct Hin as [Hin|[Heq|Hin]].
  - pose proof (Hpre _ _ Hin). split; [lra|]. intros; lra.
  - inversion Heq; subst. split; [lra|]. now left.
  - split; [eauto|]. intros _. right. eapply keys_after; eauto.
Qed.

(** ** Selections of the aggregator *)

Lemma In_roas_column (k : string) (v : num) (stats : list (string * Rollup)) :
  In (k, v) (roas_column stats) <-> exists ro, In (k, ro) stats /\ r_roas ro = v.
Proof.
  unfold roas_column. rewrite in_map_iff. split.
  - intros ([k' ro] & E & Hin). inversion E; subst. eauto.
  - intros (ro & Hin & <-). now exists (k, ro).
Qed.

Lemma roas_column_keys (stats : list (string * Rollup)) :
  map fst (roas_column stats) = map fst stats.
Proof.
  unfold roas_column. now rewrite map_map.
Qed.

Lemma loc_In (k : string) (ro : Rollup) (stats : list (string * Rollup)) :
  NoDup (map fst stats) -> In (k, ro) stats -> loc k stats = Some ro.
Proof.
  unfold loc. induction stats as [|[k' ro'] stats IH]; simpl; intros Hnd Hin.
  - contradiction.
  - inversion Hnd as [|? ? Hnotin Hnd']; subst.
    destruct Hin as [Heq|Hin].
    + inversion Heq; subst. now rewrite String.eqb_refl.
    + destruct (String.eqb k' k) eqn:E; [|auto].
      apply String.eqb_eq in E. subst. exfalso. apply Hnotin.
      now apply (in_map fst) in Hin.
Qed.

Lemma summary_of_selection (data : Table) (i : nat) (best worst : string)
    (b w : Rollup) :
  series "campaign" (columns data) = Ok i ->
  let stats := campaign_stats (rows data) in
  idxmax (roas_column stats) = Some best ->
  idxmin (roas_column stats) = Some worst ->
  loc best stats = Some b ->
  loc worst stats = Some w ->
  exists s,
    calculate_summary_stats data = Ok s /\
    s !! "best_campaign" = Some (VStr best) /\
    s !! "best_roas" = Some (VFloat (r_roas b)) /\
    s !! "worst_campaign" = Some (VStr worst) /\
    s !! "worst_roas" = Some (VFloat (r_roas w)) /\
    s !! "top_5_campaigns" = Some (VDict (nlargest 5 stats)) /\
    s !! "total_revenue" = Some (VFloat (Some (col_sum (map revenue (rows data))))).
Proof.
  intros Hcol stats Hmax Hmin Hb Hw.
  unfold calculate_summary_stats. rewrite Hcol. simpl. fold stats.
  destruct stats as [|e stats'] eqn:E; [discriminate|].
  rewrite Hmax, Hmin, Hb, Hw.
  eexists. split; [reflexivity|].
  repeat split; now simplify_map_eq.
Qed.

Example tie_table_is_normalized :
  clean_and_prepare_data parse_decimal keep_dates raw_tie
    (check_data_columns raw_tie) = Ok tie_table.
Proof. reflexivity. Qed.

(** The summary of a table whose rollup has a non-null mean roas. *)
Lemma selection_by_key_order (data : Table) (i : nat) :
  series "campaign" (columns data) = Ok i ->
  (exists k v, occurs k (rows data) /\ mean_roas (rows data) k = Some v) ->
  exists s best worst vb vw,
    calculate_summary_stats data = Ok s /\
    s !! "top_5_campaigns" = Some (VDict (nlargest 5 (campaign_stats (rows data)))) /\
    s !! "best_campaign" = Some (VStr best) /\
    s !! "best_roas" = Some (VFloat (Some vb)) /\
    s !! "worst_campaign" = Some (VStr worst) /\
    s !! "worst_roas" = Some (VFloat (Some vw)) /\
    occurs best (rows data) /\ mean_roas (rows data) best = Some vb /\
    occurs worst (rows data) /\ mean_roas (rows data) worst = Some vw /\
    forall k v,
      occurs k (rows data) -> mean_roas (rows data) k = Some v ->
      (v <= vb /\ (v == vb -> k = best \/ key_lt best k)) /\
      (vw <= v /\ (v == vw -> k = worst \/ key_lt worst k)).
Proof.
  intros Hcol (k0 & v0 & Hocc & Hmean).
  set (stats := campaign_stats (rows data)).
  assert (Hin : forall k v, occurs k (rows data) -> mean_roas (rows data) k = Some v ->
                            In (k, Some v) (roas_column stats)).
  { intros k v Ho Hm. apply In_roas_column.
    exists (rollup (List.filter (in_group k) (rows data))).
    split; [now apply In_stats|exact Hm]. }
  assert (Hout : forall k v, In (k, Some v) (roas_column stats) ->
                   exists ro, In (k, ro) stats /\ occurs k (rows data) /\
                              r_roas ro = Some v /\ mean_roas (rows data) k = Some v).
  { intros k v Hk. apply In_roas_column in Hk. destruct Hk as (ro & Hro & Hv).
    exists ro. pose proof Hro as Hro'. apply In_stats in Hro'.
    destruct Hro' as [Ho ->]. auto. }
  assert (Hsorted : StronglySorted key_lt (map fst (roas_column stats))).
  { rewrite roas_column_keys. unfold stats. rewrite stats_keys.
    apply group_keys_sorted. }
  assert (Hnd : NoDup (map fst stats)).
  { rewrite <- roas_column_keys. now apply sorted_NoDup. }
  destruct (idxmax_exists (roas_column stats)) as [best Hbest]; [eauto|].
  destruct (idxmin_exists (roas_column stats)) as [worst Hworst]; [eauto|].
  destruct (first_max_sorted _ _ Hsorted Hbest) as (vb & Hvb & Hmax).
  destruct (first_min_sorted _ _ Hsorted Hworst) as (vw & Hvw & Hmin).
  destruct (Hout _ _ Hvb) as (rb & Hrb & Hob & Erb & Hmb).
  destruct (Hout _ _ Hvw) as (rw & Hrw & How & Erw & Hmw).
  destruct (summary_of_selection data i best worst rb rw Hcol Hbest Hworst)
    as (s & Hs & H1 & H2 & H3 & H4 & H5 & _).
  { now apply loc_In. }
  { now apply loc_In. }
  exists s, best, worst, vb, vw. rewrite Erb in H2. rewrite Erw in H4.
  repeat (split; [assumption|]).
  intros k v Ho Hm. specialize (Hin k v Ho Hm). split; auto.
Qed.




(** ** The stable sort behind [nlargest] *)

Lemma In_insert_desc (x e : string * Rollup) (l : list (string * Rollup)) :
  In x (insert_desc e l) <-> x = e \/ In x l.
Proof.
  induction l as [|e' l IH]; simpl.
  - intuition.
  - destruct (Qle_bool _ _); simpl; [intuition|]. rewrite IH. intuition.
Qed.

Lemma In_sort_desc (x : string * Rollup) (l : list (string * Rollup)) :
  In x (sort_desc l) <-> In x l.
Proof.
  unfold sort_desc. induction l as [|e l IH]; simpl; [tauto|].
  rewrite In_insert_desc, IH. intuition.
Qed.

Lemma insert_desc_length (e : string * Rollup) (l : list (string * Rollup)) :
  List.length (insert_desc e l) = S (List.length l).
Proof.
  induction l as [|e' l IH]; simpl; [reflexivity|].
  destruct (Qle_bool _ _); simpl; [reflexivity|]. now rewrite IH.
Qed.

Lemma sort_desc_length (l : list (string * Rollup)) :
  List.length (sort_desc l) = List.length l.
Proof.
  unfold sort_desc. induction l as [|e l IH]; simpl; [reflexivity|].
  now rewrite insert_desc_length, IH.
Qed.

Lemma insert_desc_sorted (e : string * Rollup) (l : list (string * Rollup)) :
  StronglySorted row_before l ->
  Forall (fun x => key_lt (fst e) (fst x)) l ->
  StronglySorted row_before (insert_desc e l).
Proof.
  induction l as [|e' l IH]; simpl; intros Hs Hk.
  - repeat constructor.
  - apply StronglySorted_inv in Hs. destruct Hs as [Hs Hall].
    inversion Hk as [|? ? Hk1 Hk2]; subst.
    destruct (Qle_bool _ _) eqn:E.
    + apply Qle_bool_iff in E.
      assert (He : row_before e e').
      { unfold row_before. destruct (Qeq_dec (r_revenue (snd e)) (r_revenue (snd e'))).
        - now right.
        - left. lra. }
      constructor; [now constructor|]. constructor; [exact He|].
      rewrite Forall_forall in *. intros x Hx.
      specialize (Hall x Hx). specialize (Hk2 x Hx).
      unfold row_before in *.
      destruct (Qeq_dec (r_revenue (snd e)) (r_revenue (snd x))).
      * now right.
      * left. destruct Hall as [?|[? _]]; lra.
    + assert (r_revenue (snd e) < r_revenue (snd e')) as Hlt.
      { apply Qnot_le_lt. intros Hle. apply Qle_bool_iff in Hle. congruence. }
      constructor; [auto|].
      rewrite Forall_forall in *. intros x Hx. apply In_insert_desc in Hx.
      destruct Hx as [->|Hx]; [now left|auto].
Qed.

Lemma sort_desc_sorted (l : list (string * Rollup)) :
  StronglySorted key_lt (map fst l) -> StronglySorted row_before (sort_desc l).
Proof.
  induction l as [|e l IH]; intros Hs; [constructor|].
  change (sort_desc (e :: l)) with (insert_desc e (sort_desc l)).
  simpl in Hs. apply StronglySorted_inv in Hs. destruct Hs as [Hs Hall].
  apply insert_desc_sorted; [auto|].
  rewrite Forall_forall in *. intros x Hx.
  apply (proj1 (In_sort_desc x l)) in Hx.
  apply Hall. apply in_map_iff. now exists x.
Qed.

Lemma sorted_split {A : Type} (R : A -> A -> Prop) (l1 l2 : list A) :
  StronglySorted R (l1 ++ l2) ->
  StronglySorted R l1 /\ forall a b, In a l1 -> In b l2 -> R a b.
Proof.
  induction l1 as [|x l1 IH]; simpl; intros H.
  - split; [constructor|]. intros ? ? [].
  - apply StronglySorted_inv in H. destruct H as [Hs Hall].
    destruct (IH Hs) as [Hs1 Hcross]. split.
    + constructor; [exact Hs1|].
      apply Forall_forall. intros y Hy. rewrite Forall_forall in Hall.
      apply Hall. apply in_or_app. now left.
    + intros a b [<-|Ha] Hb; [|auto].
      rewrite Forall_forall in Hall. apply Hall. apply in_or_app. now right.
Qed.

(** [nlargest] on rows whose keys ascend. *)
Lemma nlargest_spec (n : nat) (l : list (string * Rollup)) :
  StronglySorted key_lt (map fst l) ->
  List.length (nlargest n l) = Nat.min n (List.length l) /\
  (forall e, In e (nlargest n l) -> In e l) /\
  StronglySorted row_before (nlargest n l) /\
  (forall e e', In e l -> ~ In e (nlargest n l) -> In e' (nlargest n l) ->
                row_before e' e).
Proof.
  intros Hs. unfold nlargest.
  pose proof (sort_desc_sorted l Hs) as Hsorted.
  rewrite <- (firstn_skipn n (sort_desc l)) in Hsorted.
  destruct (sorted_split _ _ _ Hsorted) as [Hfirst Hcross].
  split; [|split; [|split]].
  - now rewrite length_firstn, sort_desc_length.
  - intros e He. apply In_sort_desc.
    rewrite <- (firstn_skipn n (sort_desc l)). apply in_or_app. now left.
  - exact Hfirst.
  - intros e e' He Hnot He'. apply Hcross; [exact He'|].
    apply In_sort_desc in He.
    rewrite <- (firstn_skipn n (sort_desc l)) in He.
    apply in_app_or in He. tauto.
Qed.





(** ** Null revenue *)





(** Scenario D: three distinct campaigns give a top list of exactly
    three entries, by decreasing summed revenue. *)
Example scenario_d_top_list :
  exists t s top,
    clean_and_prepare_data parse_decimal keep_dates scenario_d
      (check_data_columns scenario_d) = Ok t /\
    calculate_summary_stats t = Ok s /\
    s !! "top_5_campaigns" = Some (VDict top) /\
    map fst top = ["North"; "East"; "West"] /\
    map (fun e => r_revenue (snd e)) top = [round2 200; round2 125; round2 50].
Proof.
  do 3 eexists. repeat split; reflexivity.
Qed.

(** * Further properties *)

(** ** The resolver *)

Lemma check_data_columns_table (data : RawFrame) :
  check_data_columns data =
  flat_map (resolve_field (columns data)) candidate_table.
Proof.
  unfold check_data_columns, map_field, candidate_table, resolve_field.
  cbn [flat_map fst snd].
  repeat match goal with
         | |- context [first_candidate ?c ?l] => destruct (first_candidate c l)
         end; reflexivity.
Qed.

Lemma in_columns_In (x : string) (cols : list string) :
  in_columns x cols = true <-> In x cols.
Proof.
  unfold in_columns. rewrite existsb_exists. split.
  - intros (y & Hy & E). apply String.eqb_eq in E. now subst.
  - intros H. exists x. split; [exact H|apply String.eqb_refl].
Qed.

Lemma first_candidate_some (cands cols : list string) (c : string) :
  first_candidate cands cols = Some c ->
  In c cands /\ in_columns c cols = true /\
  exists before after,
    cands = before ++ c :: after /\
    Forall (fun x => in_columns x cols = false) before.
Proof.
  unfold first_candidate. intros H.
  destruct (find_some _ _ H) as [Hin Hc].
  destruct (find_first _ _ _ H) as (before & after & E & Hb & _).
  repeat split; auto. now exists before, after.
Qed.

Lemma first_candidate_none (cands cols : list string) :
  first_candidate cands cols = None <->
  forall c, In c cands -> in_columns c cols = false.
Proof.
  unfold first_candidate. split.
  - intros H c Hc. exact (find_none _ _ H c Hc).
  - apply find_all_false.
Qed.

Lemma resolvable_iff (std : string) (cols : list string) :
  resolvable std cols <-> first_candidate (candidates_of std) cols <> None.
Proof.
  unfold resolvable. split.
  - intros (c & Hc & Hp) Hnone.
    rewrite first_candidate_none in Hnone. rewrite (Hnone c Hc) in Hp. discriminate.
  - intros H. destruct (first_candidate _ cols) as [c|] eqn:E; [|congruence].
    apply first_candidate_some in E. exists c. tauto.
Qed.

Lemma candidates_of_In (std : string) (cands : list string) :
  In (std, cands) candidate_table -> candidates_of std = cands.
Proof.
  unfold candidate_table. intros H. simpl in H.
  repeat (destruct H as [H|H]; [inversion H; reflexivity|]). contradiction.
Qed.

Lemma In_candidate_table (std : string) :
  In std (map fst candidate_table) -> In (std, candidates_of std) candidate_table.
Proof.
  unfold candidate_table. intros H. simpl in H.
  repeat (destruct H as [<-|H]; [vm_compute; tauto|]). contradiction.
Qed.

(** X1. Each entry of the column mapping pairs a canonical field with the
    first of its candidate names that is in the header: the chosen name
    is a candidate of the field and is in the header, and no candidate
    listed before it is.  A field has an entry exactly when one of its
    candidates is in the header, and no field has two entries. *)
Theorem mapping_takes_first_candidate (data : RawFrame) :
  (forall std orig,
      In (std, orig) (check_data_columns data) <->
      In std (map fst candidate_table) /\
      first_candidate (candidates_of std) (columns data) = Some orig) /\
  (forall std orig,
      In (std, orig) (check_data_columns data) ->
      In orig (candidates_of std) /\
      in_columns orig (columns data) = true /\
      exists before after,
        candidates_of std = before ++ orig :: after /\
        Forall (fun x => in_columns x (columns data) = false) before) /\
  (forall std,
      In std (map fst candidate_table) ->
      (In std (map fst (check_data_columns data)) <->
       resolvable std (columns data))) /\
  NoDup (map fst (check_data_columns data)).
Proof.
  assert (Hentry : forall std orig,
      In (std, orig) (check_data_columns data) <->
      In std (map fst candidate_table) /\
      first_candidate (candidates_of std) (columns data) = Some orig).
  { intros std orig. rewrite check_data_columns_table, in_flat_map. split.
    - intros ([s cands] & Hin & He). unfold resolve_field in He. cbn [fst snd] in He.
      destruct (first_candidate cands (columns data)) as [c|] eqn:E; [|contradiction].
      destruct He as [He|[]]. inversion He; subst.
      split; [now apply (in_map fst) in Hin|].
      now rewrite (candidates_of_In _ _ Hin).
    - intros [Hstd Hc]. exists (std, candidates_of std).
      split; [now apply In_candidate_table|].
      unfold resolve_field. cbn [fst snd]. rewrite Hc. now left. }
  split; [exact Hentry|]. split; [|split].
  - intros std orig Hin. apply Hentry in Hin. destruct Hin as [_ Hc].
    now apply first_candidate_some.
  - intros std Hstd. rewrite resolvable_iff, in_map_iff. split.
    + intros ([s o] & E & Hin). simpl in E. subst s.
      apply Hentry in Hin. destruct Hin as [_ Hc]. congruence.
    + intros Hne. destruct (first_candidate _ _) as [o|] eqn:E; [|congruence].
      exists (std, o). split; [reflexivity|]. apply Hentry. auto.
  - rewrite check_data_columns_table. unfold candidate_table, resolve_field.
    cbn [flat_map fst snd].
    repeat match goal with
           | |- context [first_candidate ?c ?l] => destruct (first_candidate c l)
           end; simpl;
      repeat (constructor; [simpl; intuition discriminate|]); constructor.
Qed.

Lemma mapping_takes_first_candidate_witness :
  In ("spend", "Spend") (check_data_columns scenario_a) /\
  In "Spend" (candidates_of "spend") /\
  in_columns "Spend" (columns scenario_a) = true.
Proof.
  assert (H : In ("spend", "Spend") (check_data_columns scenario_a))
    by (vm_compute; tauto).
  split; [exact H|].
  destruct (proj1 (proj2 (mapping_takes_first_candidate scenario_a)) _ _ H)
    as (H1 & H2 & _).
  now split.
Defined.

(** ** The resolver followed by the normalizer *)












(** ** Outcomes of the normalizer *)

Lemma positions_from_nonempty (i : nat) (col : string) (cols : list string) :
  in_columns col cols = true -> positions_from i col cols <> [].
Proof.
  unfold in_columns. revert i. induction cols as [|c cols IH]; simpl; intros i H.
  - discriminate.
  - rewrite (String.eqb_sym c col). destruct (String.eqb col c); [discriminate|].
    now apply IH.
Qed.

Lemma positions_from_empty (i : nat) (col : string) (cols : list string) :
  in_columns col cols = false -> positions_from i col cols = [].
Proof.
  unfold in_columns. revert i. induction cols as [|c cols IH]; simpl; intros i H.
  - reflexivity.
  - rewrite (String.eqb_sym c col). destruct (String.eqb col c); [discriminate|].
    now apply IH.
Qed.

Lemma series_ok_iff (col : string) (cols : list string) :
  (exists i, series col cols = Ok i) <-> occurrences col cols = 1%nat.
Proof.
  unfold series, occurrences.
  destruct (positions col cols) as [|i [|j l]]; simpl; split;
    try (intros [? H]; discriminate H); try discriminate; eauto.
Qed.

Lemma in_add_column (c col : string) (cols : list string) :
  in_columns c (add_column col cols) = true <->
  c = col \/ in_columns c cols = true.
Proof.
  unfold add_column. destruct (in_columns col cols) eqn:E.
  - split; [auto|]. intros [->|H]; auto.
  - rewrite !in_columns_In, in_app_iff. simpl. intuition.
Qed.

Section NormalizerOutcomes.

Variable to_numeric_str : string -> num.
Variable to_datetime : cell -> option stamp.

Let clean := clean_and_prepare_data to_numeric_str to_datetime.

(** X3. What the normalizer returns is decided by the renamed header.  It
    exits when a required name is absent.  Otherwise it raises when
    impressions, clicks, spend or revenue names more than one column, and
    in every other case it returns a table, whose header has the nine
    canonical names and which has at most as many records as there are
    raw rows. *)
Theorem normalizer_outcome (raw : RawFrame) (cm : list (string * string)) :
  let cols := apply_mapping cm (columns raw) in
  (forall c, missing_required cols = Some c ->
             clean raw cm = Exit (missing_message c)) /\
  (missing_required cols = None ->
   (exists f, In f series_fields /\ (1 < occurrences f cols)%nat) ->
   exists e, clean raw cm = Raised e) /\
  (missing_required cols = None ->
   (forall f, In f series_fields -> (occurrences f cols <= 1)%nat) ->
   exists t,
     clean raw cm = Ok t /\
     Forall (fun c => in_columns c (columns t) = true) canonical_columns /\
     (List.length (rows t) <= List.length (rows raw))%nat).
Proof.
  intros cols. split; [|split].
  - intros c Hc. unfold clean, clean_and_prepare_data. fold cols. now rewrite Hc.
  - intros Hm (f & Hf & Hdup).
    assert (Hno : forall i, series f cols <> Ok i).
    { intros i Hi. assert (occurrences f cols = 1%nat) by (apply series_ok_iff; eauto).
      lia. }
    unfold clean, clean_and_prepare_data. fold cols. rewrite Hm.
    destruct (series_cases "spend" cols) as [[i1 E1]|[e ->]]; [|simpl; eauto].
    destruct (series_cases "impressions" cols) as [[i2 E2]|[e E2]];
      [|rewrite E1, E2; simpl; eauto].
    destruct (series_cases "clicks" cols) as [[i3 E3]|[e E3]];
      [|rewrite E1, E2, E3; simpl; eauto].
    rewrite E1, E2, E3. simpl.
    destruct (in_columns "revenue" cols) eqn:Er.
    + destruct (series_cases "revenue" cols) as [[i4 E4]|[e ->]]; [|simpl; eauto].
      exfalso. simpl in Hf.
      destruct Hf as [<-|[<-|[<-|[<-|[]]]]]; eapply Hno; eauto.
    + exfalso. simpl in Hf.
      destruct Hf as [<-|[<-|[<-|[<-|[]]]]]; try (eapply Hno; now eauto).
      unfold occurrences, positions in Hdup.
      rewrite (positions_from_empty _ _ _ Er) in Hdup. simpl in Hdup. lia.
  - intros Hm Hone.
    assert (Hreq : forall f, In f required -> in_columns f cols = true).
    { intros f Hf. pose proof (find_none _ _ Hm f Hf) as Hn.
      now apply negb_false_iff in Hn. }
    assert (Hser : forall f, In f series_fields -> in_columns f cols = true ->
                             exists i, series f cols = Ok i).
    { intros f Hf Hp. apply series_ok_iff. specialize (Hone f Hf).
      pose proof (positions_from_nonempty 0 f cols Hp) as Hne.
      unfold occurrences, positions in *.
      destruct (positions_from 0 f cols); [congruence|simpl in *; lia]. }
    destruct (Hser "spend") as [i1 E1]; [simpl; tauto|apply Hreq; simpl; tauto|].
    destruct (Hser "impressions") as [i2 E2]; [simpl; tauto|apply Hreq; simpl; tauto|].
    destruct (Hser "clicks") as [i3 E3]; [simpl; tauto|apply Hreq; simpl; tauto|].
    assert (Hok : exists t, clean raw cm = Ok t).
    { unfold clean, clean_and_prepare_data. fold cols. rewrite Hm, E1, E2, E3. simpl.
      destruct (in_columns "revenue" cols) eqn:Er.
      - destruct (Hser "revenue") as [i4 E4]; [simpl; tauto|exact Er|].
        rewrite E4. simpl. eauto.
      - simpl. eauto. }
    destruct Hok as [t Ht]. exists t. split; [exact Ht|]. split.
    + pose proof (clean_on_rows to_numeric_str to_datetime raw cm t (rows raw) Ht) as Hc.
      assert (Hcols : columns t = add_column "roas" (add_column "cpc"
                        (add_column "ctr" (add_column "revenue" cols)))).
      { unfold clean, clean_and_prepare_data in Ht. fold cols in Ht.
        rewrite Hm, E1, E2, E3 in Ht. simpl in Ht.
        destruct (in_columns "revenue" cols).
        - destruct (series "revenue" cols); simpl in Ht; inversion Ht; reflexivity.
        - simpl in Ht. inversion Ht. reflexivity. }
      rewrite Hcols. unfold canonical_columns.
      repeat constructor; rewrite !in_add_column;
        try (now (repeat (try (left; reflexivity); right)));
        repeat right; apply Hreq; simpl; tauto.
    + pose proof (clean_normalized to_numeric_str to_datetime raw cm t Ht) as Hn.
      apply Forall2_length in Hn. rewrite <- Hn. apply filter_length_le.
Qed.

End NormalizerOutcomes.

Lemma normalizer_outcome_witness :
  missing_required
    (apply_mapping (check_data_columns raw_two_spends) (columns raw_two_spends))
  = None /\
  (exists f, In f series_fields /\
     (1 < occurrences f
            (apply_mapping (check_data_columns raw_two_spends)
               (columns raw_two_spends)))%nat) /\
  exists e,
    clean_and_prepare_data parse_decimal keep_dates raw_two_spends
      (check_data_columns raw_two_spends) = Raised e.
Proof.
  assert (Hdup : exists f, In f series_fields /\
     (1 < occurrences f
            (apply_mapping (check_data_columns raw_two_spends)
               (columns raw_two_spends)))%nat).
  { exists "spend". split; [simpl; tauto|]. vm_compute. lia. }
  split; [reflexivity|]. split; [exact Hdup|].
  exact (proj1 (proj2 (normalizer_outcome parse_decimal keep_dates raw_two_spends
                         (check_data_columns raw_two_spends))) eq_refl Hdup).
Defined.

(** ** Dates *)


Section Dates.

Variable to_numeric_str : string -> num.
Variable to_datetime : cell -> option stamp.



End Dates.


(** ** Outcomes and entries of the aggregator *)

Example null_roas_table_is_normalized :
  clean_and_prepare_data parse_decimal keep_dates raw_no_revenue_number
    (check_data_columns raw_no_revenue_number) = Ok null_roas_table.
Proof. reflexivity. Qed.

Lemma stats_empty_iff (data : list CampaignRecord) :
  campaign_stats data = [] <-> forall k, ~ occurs k data.
Proof.
  split.
  - intros E k Ho. apply In_group_keys in Ho. rewrite <- stats_keys, E in Ho.
    contradiction.
  - intros H. destruct (campaign_stats data) as [|[k ro] l] eqn:E; [reflexivity|].
    exfalso. apply (H k). apply In_group_keys. rewrite <- stats_keys, E. now left.
Qed.





(** The two shapes of a returned summary. *)
Lemma summary_shape (data : Table) (s : gmap string value) :
  calculate_summary_stats data = Ok s ->
  (campaign_stats (rows data) = [] /\ s = global_summary data) \/
  (campaign_stats (rows data) <> [] /\
   exists best worst b w,
     loc best (campaign_stats (rows data)) = Some b /\
     loc worst (campaign_stats (rows data)) = Some w /\
     s = <["top_5_campaigns" := VDict (nlargest 5 (campaign_stats (rows data)))]>
         (<["worst_roas" := VFloat (r_roas w)]>
         (<["worst_campaign" := VStr worst]>
         (<["best_roas" := VFloat (r_roas b)]>
         (<["best_campaign" := VStr best]> (global_summary data)))))).
Proof.
  unfold calculate_summary_stats, global_summary. intros H.
  destruct (series "campaign" (columns data)); simpl in H; try discriminate.
  destruct (campaign_stats (rows data)) as [|e stats] eqn:Es.
  - left. inversion H. auto.
  - right. split; [discriminate|].
    destruct (idxmax _) as [best|]; [|discriminate].
    destruct (idxmin _) as [worst|]; [|discriminate].
    destruct (loc best _) as [b|] eqn:Eb; [|discriminate].
    destruct (loc worst _) as [w|] eqn:Ew; [|discriminate].
    inversion H. now exists best, worst, b, w.
Qed.

Lemma global_summary_keys (data : Table) (key : string) :
  is_Some (global_summary data !! key) <-> In key global_keys.
Proof.
  unfold global_summary, global_keys.
  rewrite !lookup_insert_is_Some'. simpl.
  pose proof (lookup_empty_is_Some (M := gmap string) (A := value) key).
  intuition.
Qed.

(** X6. A returned summary has the seven entries of the totals and
    averages, and either none or all five of the entries best_campaign,
    best_roas, worst_campaign, worst_roas and top_5_campaigns: none when
    no campaign occurs in the table, all five otherwise.  It has no other
    entry. *)
Theorem summary_has_seven_or_twelve_keys (data : Table) (s : gmap string value) :
  calculate_summary_stats data = Ok s ->
  ((forall k, ~ occurs k (rows data)) ->
   forall key, is_Some (s !! key) <-> In key global_keys) /\
  ((exists k, occurs k (rows data)) ->
   forall key, is_Some (s !! key) <-> In key (global_keys ++ selection_keys)).
Proof.
  intros H.
  destruct (summary_shape data s H)
    as [[Es ->]|[Hne (best & worst & b & w & _ & _ & ->)]].
  - split.
    + intros _ key. apply global_summary_keys.
    + intros [k Hk]. exfalso. exact (proj1 (stats_empty_iff (rows data)) Es k Hk).
  - split.
    + intros Hnone. exfalso. apply Hne. now apply stats_empty_iff.
    + intros _ key. rewrite !lookup_insert_is_Some', global_summary_keys.
      rewrite in_app_iff. unfold selection_keys. simpl. intuition.
Qed.

Lemma summary_has_seven_or_twelve_keys_witness :
  exists s,
    calculate_summary_stats tie_table = Ok s /\
    (exists k, occurs k (rows tie_table)) /\
    forall key, is_Some (s !! key) <-> In key (global_keys ++ selection_keys).
Proof.
  assert (Ho : exists k, occurs k (rows tie_table)).
  { exists "A", (plain_record "A"). simpl. auto. }
  eexists. split; [reflexivity|]. split; [exact Ho|].
  exact (proj2 (summary_has_seven_or_twelve_keys tie_table _ eq_refl) Ho).
Defined.

(** X7. In a returned summary that has selections the worst roas is not
    above the best roas, and when a single campaign occurs in the table
    it is both the best and the worst campaign. *)
Theorem worst_roas_not_above_best (data : Table) (i : nat) :
  series "campaign" (columns data) = Ok i ->
  (exists k v, occurs k (rows data) /\ mean_roas (rows data) k = Some v) ->
  exists s best worst vb vw,
    calculate_summary_stats data = Ok s /\
    s !! "best_campaign" = Some (VStr best) /\
    s !! "best_roas" = Some (VFloat (Some vb)) /\
    s !! "worst_campaign" = Some (VStr worst) /\
    s !! "worst_roas" = Some (VFloat (Some vw)) /\
    vw <= vb /\
    (forall k, (forall k', occurs k' (rows data) -> k' = k) ->
               best = k /\ worst = k /\ vb = vw).
Proof.
  intros Hcol Hsome.
  destruct (selection_by_key_order data i Hcol Hsome)
    as (s & best & worst & vb & vw & Hs & _ & H1 & H2 & H3 & H4 & Hob & Hmb
        & How & Hmw & Hall).
  exists s, best, worst, vb, vw. repeat (split; [assumption|]). split.
  - destruct (Hall worst vw How Hmw) as [[Hle _] _]. exact Hle.
  - intros k Honly. pose proof (Honly best Hob). pose proof (Honly worst How).
    subst. repeat split. congruence.
Qed.

Lemma worst_roas_not_above_best_witness :
  series "campaign" (columns tie_table) = Ok 0%nat /\
  (exists k v, occurs k (rows tie_table) /\ mean_roas (rows tie_table) k = Some v) /\
  exists s vb vw,
    calculate_summary_stats tie_table = Ok s /\
    s !! "best_roas" = Some (VFloat (Some vb)) /\
    s !! "worst_roas" = Some (VFloat (Some vw)) /\
    vw <= vb.
Proof.
  assert (H : exists k v, occurs k (rows tie_table) /\
                          mean_roas (rows tie_table) k = Some v).
  { exists "A". eexists. split; [|reflexivity].
    exists (plain_record "A"). simpl. auto. }
  split; [reflexivity|]. split; [exact H|].
  destruct (worst_roas_not_above_best tie_table 0 eq_refl H)
    as (s & best & worst & vb & vw & Hs & _ & Hb & _ & Hw & Hle & _).
  now exists s, vb, vw.
Defined.

(** ** Averages of a normalized table *)

Lemma global_entry (data : Table) (s : gmap string value) (key : string) :
  calculate_summary_stats data = Ok s ->
  In key global_keys ->
  s !! key = global_summary data !! key.
Proof.
  intros H Hk.
  destruct (summary_shape data s H)
    as [[_ ->]|[_ (best & worst & b & w & _ & _ & ->)]]; [reflexivity|].
  unfold global_keys in Hk. simpl in Hk.
  repeat (destruct Hk as [<-|Hk]; [now rewrite !lookup_insert_ne by discriminate|]).
  contradiction.
Qed.





(** ** The insight composer on arbitrary summaries *)

Ltac read_key s key Htotal :=
  let v := fresh "v" in
  destruct (s !! key) as [v|]; [|reflexivity];
  cbn [bind];
  repeat match goal with
         | |- context [?format v ?spec] =>
             let str := fresh "str" in let E := fresh "E" in
             destruct (Htotal v spec) as [str E]; rewrite E; clear E
         end;
  cbn [bind].

(** The composer, key by key. *)
Lemma composer_cases
    (format : value -> string -> outcome string) (s : gmap string value) :
  (forall v spec, exists str, format v spec = Ok str) ->
  (forall v, s !! "avg_ctr" = Some v -> is_number v) ->
  match List.find (absent s) insight_keys with
  | Some key => generate_insights format s = Raised ("KeyError: " +:+ key)
  | None => exists l, generate_insights format s = Ok l /\ List.length l = 7%nat
  end.
Proof.
  intros Htotal Hnum.
  unfold generate_insights, field, getitem, insight_keys, absent.
  cbn [List.find].
  read_key s "total_impressions" Htotal.
  read_key s "total_clicks" Htotal.
  read_key s "total_spend" Htotal.
  read_key s "total_revenue" Htotal.
  destruct (s !! "avg_ctr") as [c|] eqn:Ectr; [|reflexivity].
  specialize (Hnum c eq_refl). cbn [bind].
  destruct c as [z|x| |]; try contradiction; cbn [times100 bind];
    match goal with
    | |- context [format ?v ?spec] =>
        let str := fresh "str" in let E := fresh "E" in
        destruct (Htotal v spec) as [str E]; rewrite E; clear E
    end; cbn [bind];
    read_key s "avg_cpc" Htotal;
    read_key s "best_campaign" Htotal;
    read_key s "best_roas" Htotal;
    read_key s "worst_campaign" Htotal;
    read_key s "worst_roas" Htotal;
    read_key s "avg_roas" Htotal;
    eexists; split; reflexivity.
Qed.

(** X9. With a [format] that renders every value, on a summary whose
    avg_ctr, if present, is a number, the composer raises the KeyError
    that names the first key absent from the summary in its reading
    order, and returns seven insights when all eleven keys are present. *)
Theorem composer_reports_first_absent_key
    (format : value -> string -> outcome string) (s : gmap string value) :
  (forall v spec, exists str, format v spec = Ok str) ->
  (forall v, s !! "avg_ctr" = Some v -> is_number v) ->
  match List.find (absent s) insight_keys with
  | Some key => generate_insights format s = Raised ("KeyError: " +:+ key)
  | None => exists l, generate_insights format s = Ok l /\ List.length l = 7%nat
  end.
Proof.
  exact (composer_cases format s).
Qed.

Lemma composer_reports_first_absent_key_witness :
  (forall v spec, exists str, blank_format v spec = Ok str) /\
  (forall v, global_summary empty_table !! "avg_ctr" = Some v -> is_number v) /\
  generate_insights blank_format (global_summary empty_table)
  = Raised "KeyError: best_campaign".
Proof.
  assert (H1 : forall v spec, exists str, blank_format v spec = Ok str)
    by (intros; now exists "").
  assert (H2 : forall v, global_summary empty_table !! "avg_ctr" = Some v ->
                         is_number v).
  { intros v Hv. vm_compute in Hv. inversion Hv. exact I. }
  split; [exact H1|]. split; [exact H2|].
  exact (composer_reports_first_absent_key blank_format
           (global_summary empty_table) H1 H2).
Defined.

(** X10. The composer looks at its eleven keys only: two summaries that
    agree on them, whatever else they hold (top_5_campaigns included),
    give the same result. *)
Theorem composer_reads_eleven_keys
    (format : value -> string -> outcome string) (s s' : gmap string value) :
  (forall key, In key insight_keys -> s !! key = s' !! key) ->
  generate_insights format s = generate_insights format s'.
Proof.
  intros H. unfold generate_insights, field, getitem.
  rewrite !H by (unfold insight_keys; simpl; tauto). reflexivity.
Qed.

Lemma composer_reads_eleven_keys_witness :
  (forall key, In key insight_keys ->
     (<["top_5_campaigns" := VDict []]> (global_summary empty_table)) !! key =
     global_summary empty_table !! key) /\
  generate_insights blank_format
    (<["top_5_campaigns" := VDict []]> (global_summary empty_table)) =
  generate_insights blank_format (global_summary empty_table).
Proof.
  assert (H : forall key, In key insight_keys ->
     (<["top_5_campaigns" := VDict []]> (global_summary empty_table)) !! key =
     global_summary empty_table !! key).
  { intros key Hk. apply lookup_insert_ne. intros <-.
    unfold insight_keys in Hk. simpl in Hk. intuition discriminate. }
  split; [exact H|].
  exact (composer_reads_eleven_keys blank_format _ _ H).
Defined.

(** ** The aggregator followed by the composer *)

(** X11. When the campaign column is a single column and some campaign
    has a non-null mean roas, the summary that the aggregator returns has
    every key the composer reads: with a [format] that renders every
    value the composer returns seven insights. *)
Theorem insights_of_returned_summary
    (format : value -> string -> outcome string) (data : Table) (i : nat) :
  (forall v spec, exists str, format v spec = Ok str) ->
  series "campaign" (columns data) = Ok i ->
  (exists k v, occurs k (rows data) /\ mean_roas (rows data) k = Some v) ->
  exists s l,
    calculate_summary_stats data = Ok s /\
    generate_insights format s = Ok l /\
    List.length l = 7%nat.
Proof.
  intros Htotal Hcol Hsome.
  destruct (selection_by_key_order data i Hcol Hsome) as (s & _ & _ & _ & _ & Hs & _).
  exists s.
  destruct (summary_shape data s Hs)
    as [[Es _]|[_ (best & worst & b & w & _ & _ & E)]].
  - exfalso. destruct Hsome as (k & v & Ho & _).
    exact (proj1 (stats_empty_iff (rows data)) Es k Ho).
  - pose proof (composer_cases format s Htotal) as Hc.
    assert (Hfind : List.find (absent s) insight_keys = None).
    { subst s. unfold insight_keys, absent, global_summary. cbn [List.find].
      now simplify_map_eq. }
    rewrite Hfind in Hc.
    destruct Hc as (l & Hl & Hlen).
    + intros v Hv. subst s. unfold global_summary in Hv.
      simplify_map_eq. exact I.
    + now exists l.
Qed.

Lemma insights_of_returned_summary_witness :
  (forall v spec, exists str, blank_format v spec = Ok str) /\
  series "campaign" (columns tie_table) = Ok 0%nat /\
  (exists k v, occurs k (rows tie_table) /\ mean_roas (rows tie_table) k = Some v) /\
  exists s l,
    calculate_summary_stats tie_table = Ok s /\
    generate_insights blank_format s = Ok l /\
    List.length l = 7%nat.
Proof.
  assert (H1 : forall v spec, exists str, blank_format v spec = Ok str)
    by (intros; now exists "").
  assert (H : exists k v, occurs k (rows tie_table) /\
                          mean_roas (rows tie_table) k = Some v).
  { exists "A". eexists. split; [|reflexivity].
    exists (plain_record "A"). simpl. auto. }
  split; [exact H1|]. split; [reflexivity|]. split; [exact H|].
  exact (insights_of_returned_summary blank_format tie_table 0 H1 eq_refl H).
Defined.

(** ** The chart *)

Lemma In_insert_total (x e : string * Totals) (l : list (string * Totals)) :
  In x (insert_total e l) <-> x = e \/ In x l.
Proof.
  induction l as [|e' l IH]; simpl.
  - intuition.
  - destruct (Qle_bool _ _); simpl; [intuition|]. rewrite IH. intuition.
Qed.

Lemma In_sort_totals (x : string * Totals) (l : list (string * Totals)) :
  In x (sort_totals l) <-> In x l.
Proof.
  induction l as [|e l IH]; [simpl; tauto|].
  change (sort_totals (e :: l)) with (insert_total e (sort_totals l)).
  rewrite In_insert_total, IH. simpl. intuition.
Qed.

Lemma insert_total_length (e : string * Totals) (l : list (string * Totals)) :
  List.length (insert_total e l) = S (List.length l).
Proof.
  induction l as [|e' l IH]; simpl; [reflexivity|].
  destruct (Qle_bool _ _); simpl; [reflexivity|]. now rewrite IH.
Qed.

Lemma sort_totals_length (l : list (string * Totals)) :
  List.length (sort_totals l) = List.length l.
Proof.
  induction l as [|e l IH]; [reflexivity|].
  change (sort_totals (e :: l)) with (insert_total e (sort_totals l)).
  rewrite insert_total_length, IH. reflexivity.
Qed.

Lemma insert_total_sorted (e : string * Totals) (l : list (string * Totals)) :
  StronglySorted totals_before l ->
  Forall (fun x => key_lt (fst e) (fst x)) l ->
  StronglySorted totals_before (insert_total e l).
Proof.
  induction l as [|e' l IH]; simpl; intros Hs Hk.
  - repeat constructor.
  - apply StronglySorted_inv in Hs. destruct Hs as [Hs Hall].
    inversion Hk as [|? ? Hk1 Hk2]; subst.
    destruct (Qle_bool _ _) eqn:E.
    + apply Qle_bool_iff in E.
      assert (He : totals_before e e').
      { unfold totals_before.
        destruct (Qeq_dec (t_revenue (snd e)) (t_revenue (snd e'))).
        - now right.
        - left. lra. }
      constructor; [now constructor|]. constructor; [exact He|].
      rewrite Forall_forall in *. intros x Hx.
      specialize (Hall x Hx). specialize (Hk2 x Hx).
      unfold totals_before in *.
      destruct (Qeq_dec (t_revenue (snd e)) (t_revenue (snd x))).
      * now right.
      * left. destruct Hall as [?|[? _]]; lra.
    + assert (t_revenue (snd e) < t_revenue (snd e')) as Hlt.
      { apply Qnot_le_lt. intros Hle. apply Qle_bool_iff in Hle. congruence. }
      constructor; [auto|].
      rewrite Forall_forall in *. intros x Hx. apply In_insert_total in Hx.
      destruct Hx as [->|Hx]; [now left|auto].
Qed.

Lemma sort_totals_sorted (l : list (string * Totals)) :
  StronglySorted key_lt (map fst l) -> StronglySorted totals_before (sort_totals l).
Proof.
  induction l as [|e l IH]; intros Hs; [constructor|].
  change (sort_totals (e :: l)) with (insert_total e (sort_totals l)).
  simpl in Hs. apply StronglySorted_inv in Hs. destruct Hs as [Hs Hall].
  apply insert_total_sorted; [auto|].
  rewrite Forall_forall in *. intros x Hx.
  apply (proj1 (In_sort_totals x l)) in Hx.
  apply Hall. apply in_map_iff. now exists x.
Qed.

Lemma nlargest_totals_spec (n : nat) (l : list (string * Totals)) :
  StronglySorted key_lt (map fst l) ->
  List.length (nlargest_totals n l) = Nat.min n (List.length l) /\
  (forall e, In e (nlargest_totals n l) -> In e l) /\
  StronglySorted totals_before (nlargest_totals n l) /\
  (forall e e', In e l -> ~ In e (nlargest_totals n l) ->
                In e' (nlargest_totals n l) -> totals_before e' e).
Proof.
  intros Hs. unfold nlargest_totals.
  pose proof (sort_totals_sorted l Hs) as Hsorted.
  rewrite <- (firstn_skipn n (sort_totals l)) in Hsorted.
  destruct (sorted_split _ _ _ Hsorted) as [Hfirst Hcross].
  split; [|split; [|split]].
  - now rewrite length_firstn, sort_totals_length.
  - intros e He. apply In_sort_totals.
    rewrite <- (firstn_skipn n (sort_totals l)). apply in_or_app. now left.
  - exact Hfirst.
  - intros e e' He Hnot He'. apply Hcross; [exact He'|].
    apply In_sort_totals in He.
    rewrite <- (firstn_skipn n (sort_totals l)) in He.
    apply in_app_or in He. tauto.
Qed.

Lemma totals_keys (data : list CampaignRecord) :
  map fst (campaign_totals data) = group_keys data.
Proof.
  unfold campaign_totals. rewrite map_map. simpl. apply map_id.
Qed.

Lemma In_totals (k : string) (tt : Totals) (data : list CampaignRecord) :
  In (k, tt) (campaign_totals data) <->
  occurs k data /\ tt = totals (List.filter (in_group k) data).
Proof.
  unfold campaign_totals. rewrite in_map_iff, <- In_group_keys. split.
  - intros (k' & E & Hin). inversion E; subst. auto.
  - intros [Hin ->]. eauto.
Qed.

Lemma xrange_length (n : nat) : List.length (xrange n) = n.
Proof.
  unfold xrange. now rewrite length_map, length_seq.
Qed.

Lemma map_snd_combine_eq {A B : Type} (l1 : list A) (l2 : list B) :
  List.length l1 = List.length l2 -> map snd (combine l1 l2) = l2.
Proof.
  revert l2. induction l1 as [|a l1 IH]; intros [|b l2] H; simpl in *;
    try discriminate; [reflexivity|].
  f_equal. apply IH. lia.
Qed.

(** The rows that the chart draws. *)
Lemma chart_rows (data : Table) (output_path : string) (i : nat) :
  series "campaign" (columns data) = Ok i ->
  exists c drawn,
    create_performance_chart data output_path = Ok (output_path, c) /\
    drawn = (if Nat.ltb 15 (List.length (campaign_totals (rows data)))
             then nlargest_totals 15 (campaign_totals (rows data))
             else campaign_totals (rows data)) /\
    charted c = map fst drawn /\
    map snd (impression_bars c) = map (fun e => t_impressions (snd e)) drawn /\
    map snd (click_bars c) = map (fun e => t_clicks (snd e)) drawn /\
    map snd (revenue_bars c) = map (fun e => t_revenue (snd e)) drawn.
Proof.
  intros Hcol. unfold create_performance_chart. rewrite Hcol. simpl.
  set (drawn := if Nat.ltb 15 _ then _ else _).
  eexists. exists drawn. split; [reflexivity|]. split; [reflexivity|].
  unfold charted. simpl.
  repeat split; apply map_snd_combine_eq;
    now rewrite ?length_map, xrange_length.
Qed.


(** X12. When the campaign column is a single column the chart is drawn,
    for at most fifteen campaigns: fifteen of them or all when there are
    fewer.  Every campaign drawn occurs in the table, and its three bars
    have the heights of its summed impressions, clicks and revenue.  When
    the campaign name does not select a single column the function
    raises. *)
Theorem chart_draws_at_most_fifteen (data : Table) (output_path : string) :
  (forall i, series "campaign" (columns data) = Ok i ->
     exists c,
       create_performance_chart data output_path = Ok (output_path, c) /\
       List.length (charted c) =
         Nat.min 15 (List.length (group_keys (rows data))) /\
       (forall k, In k (charted c) -> occurs k (rows data)) /\
       map snd (impression_bars c) =
         map (fun k => col_sum (map impressions (List.filter (in_group k) (rows data))))
             (charted c) /\
       map snd (click_bars c) =
         map (fun k => col_sum (map clicks (List.filter (in_group k) (rows data))))
             (charted c) /\
       map snd (revenue_bars c) =
         map (fun k => col_sum (map revenue (List.filter (in_group k) (rows data))))
             (charted c)) /\
  (occurrences "campaign" (columns data) <> 1%nat ->
   exists e, create_performance_chart data output_path = Raised e).
Proof.
  split.
  - intros i Hcol.
    destruct (chart_rows data output_path i Hcol)
      as (c & drawn & Hc & Hd & Hch & Hi & Hk & Hr).
    assert (Hsorted : StronglySorted key_lt (map fst (campaign_totals (rows data)))).
    { rewrite totals_keys. apply group_keys_sorted. }
    destruct (nlargest_totals_spec 15 _ Hsorted) as (Hlen & Hsub & _ & _).
    assert (Hin : forall e, In e drawn -> In e (campaign_totals (rows data))).
    { rewrite Hd. destruct (Nat.ltb 15 _); auto. }
    assert (Hsnd : forall e, In e drawn ->
                     snd e = totals (List.filter (in_group (fst e)) (rows data))).
    { intros [k tt] He. apply Hin, In_totals in He. now destruct He. }
    exists c. split; [exact Hc|]. rewrite Hch, Hi, Hk, Hr.
    split; [|split; [|split; [|split]]].
    + rewrite length_map, Hd, <- totals_keys, length_map.
      destruct (Nat.ltb 15 _) eqn:E.
      * exact Hlen.
      * apply Nat.ltb_ge in E. lia.
    + intros k Hk'. apply in_map_iff in Hk'. destruct Hk' as ([k' tt] & <- & He).
      apply Hin, In_totals in He. now destruct He.
    + rewrite map_map. apply map_ext_in. intros e He. now rewrite (Hsnd e He).
    + rewrite map_map. apply map_ext_in. intros e He. now rewrite (Hsnd e He).
    + rewrite map_map. apply map_ext_in. intros e He. now rewrite (Hsnd e He).
  - intros Hne. unfold create_performance_chart.
    destruct (series_cases "campaign" (columns data)) as [[i Hi]|[e ->]].
    + exfalso. apply Hne. apply series_ok_iff. eauto.
    + simpl. eauto.
Qed.

Lemma chart_draws_at_most_fifteen_witness :
  series "campaign" (columns sixteen_table) = Ok 0%nat /\
  exists c,
    create_performance_chart sixteen_table "chart.png" = Ok ("chart.png", c) /\
    List.length (charted c) = 15%nat.
Proof.
  split; [reflexivity|].
  destruct (proj1 (chart_draws_at_most_fifteen sixteen_table "chart.png") 0%nat eq_refl)
    as (c & Hc & Hlen & _).
  exists c. split; [exact Hc|]. rewrite Hlen. reflexivity.
Defined.



(** With sixteen campaigns of equal revenue the chart leaves out the one
    whose identifier is last. *)
Example sixteen_campaigns_chart :
  exists c,
    create_performance_chart sixteen_table "chart.png" = Ok ("chart.png", c) /\
    charted c = ["c01"; "c02"; "c03"; "c04"; "c05"; "c06"; "c07"; "c08";
                 "c09"; "c10"; "c11"; "c12"; "c13"; "c14"; "c15"].
Proof.
  eexists. split; reflexivity.
Qed.

(** ** The report *)

Section ReportFacts.

Variable format : value -> string -> outcome string.
Variable today : string.

Let report := create_powerpoint_report format today.

Lemma top_lines_length (d : list (string * Rollup)) :
  forall i lines, top_lines format i d = Ok lines ->
                  List.length lines = List.length d.
Proof.
  induction d as [|[camp stats] d IH]; simpl; intros i lines H.
  - inversion H. reflexivity.
  - bind_inv H. inversion H. simpl. f_equal. eauto.
Qed.

Lemma top_lines_total (d : list (string * Rollup)) :
  (forall v spec, exists str, format v spec = Ok str) ->
  forall i, exists lines, top_lines format i d = Ok lines.
Proof.
  intros Htotal. induction d as [|[camp stats] d IH]; simpl; intros i; [eauto|].
  repeat match goal with
         | |- context [format ?v ?spec] =>
             let str := fresh "str" in let E := fresh "E" in
             destruct (Htotal v spec) as [str E]; rewrite E; clear E; cbn [bind]
         end.
  destruct (IH (i + 1)%Z) as [rest ->]. cbn [bind]. eauto.
Qed.

(** The slides of a returned report. *)
Lemma report_shape (s : gmap string value) (insights : list string)
    (chart_path output_path p : string) (slides : list Slide) :
  report s insights chart_path output_path = Ok (p, slides) ->
  p = output_path /\
  exists metrics rest,
    slides =
      mkSlide 0 "Campaign Performance Report" (Some today) [] None
      :: mkSlide 1 "Executive Summary" None
                 (map (fun i => "• " +:+ i) (firstn 4 insights)) None
      :: mkSlide 1 "Key Performance Indicators" None metrics None
      :: mkSlide 5 "Campaign Performance Overview" None [] (Some chart_path)
      :: rest /\
    List.length metrics = 7%nat /\
    ((s !! "top_5_campaigns" = None /\ rest = []) \/
     (exists d lines,
         s !! "top_5_campaigns" = Some (VDict d) /\
         top_lines format 1 d = Ok lines /\
         rest = [mkSlide 1 "Top 5 Campaigns" None lines None])).
Proof.
  unfold report, create_powerpoint_report. intros H. bind_inv H.
  destruct (s !! "top_5_campaigns") as [[| | |d]|] eqn:Et; try discriminate.
  - bind_inv H. inversion H. split; [reflexivity|].
    do 2 eexists. split; [reflexivity|]. split; [reflexivity|].
    right. now exists d, a8.
  - inversion H. split; [reflexivity|].
    do 2 eexists. split; [reflexivity|]. split; [reflexivity|]. now left.
Qed.

(** The report, key by key. *)
Lemma report_cases (s : gmap string value) (insights : list string)
    (chart_path output_path : string) :
  (forall v spec, exists str, format v spec = Ok str) ->
  (forall v, s !! "avg_ctr" = Some v -> is_number v) ->
  top_is_dict s ->
  match List.find (absent s) global_keys with
  | Some key =>
      report s insights chart_path output_path = Raised ("KeyError: " +:+ key)
  | None =>
      exists slides,
        report s insights chart_path output_path = Ok (output_path, slides) /\
        List.length slides = (if absent s "top_5_campaigns" then 4 else 5)%nat /\
        map title slides = firstn (List.length slides) slide_titles
  end.
Proof.
  intros Htotal Hnum Hdict.
  unfold report, create_powerpoint_report, field, getitem, global_keys, absent.
  cbn [List.find].
  read_key s "total_impressions" Htotal.
  read_key s "total_clicks" Htotal.
  read_key s "total_spend" Htotal.
  read_key s "total_revenue" Htotal.
  destruct (s !! "avg_ctr") as [c|] eqn:Ectr; [|reflexivity].
  specialize (Hnum c eq_refl). cbn [bind].
  destruct c as [z|x| |]; try contradiction; cbn [times100 bind].
  - match goal with
    | |- context [format ?v ?spec] =>
        let str := fresh "str" in let E := fresh "E" in
        destruct (Htotal v spec) as [str E]; rewrite E; clear E
    end.
    cbn [bind].
    read_key s "avg_cpc" Htotal.
    read_key s "avg_roas" Htotal.
    destruct (s !! "top_5_campaigns") as [top|] eqn:Et.
    + destruct (Hdict top Et) as [d ->].
      destruct (top_lines_total d Htotal 1%Z) as [lines ->]. cbn [bind].
      eexists. split; [reflexivity|]. split; reflexivity.
    + eexists. split; [reflexivity|]. split; reflexivity.
  - match goal with
    | |- context [format ?v ?spec] =>
        let str := fresh "str" in let E := fresh "E" in
        destruct (Htotal v spec) as [str E]; rewrite E; clear E
    end.
    cbn [bind].
    read_key s "avg_cpc" Htotal.
    read_key s "avg_roas" Htotal.
    destruct (s !! "top_5_campaigns") as [top|] eqn:Et.
    + destruct (Hdict top Et) as [d ->].
      destruct (top_lines_total d Htotal 1%Z) as [lines ->]. cbn [bind].
      eexists. split; [reflexivity|]. split; reflexivity.
    + eexists. split; [reflexivity|]. split; reflexivity.
Qed.

End ReportFacts.

(** X14. With a [format] that renders every value, on a summary whose
    avg_ctr, if present, is a number and whose top list, if present, is
    a dictionary, the report function raises the KeyError that names the
    first absent key among the seven totals and averages, and otherwise
    returns the output path with four slides when the summary has no
    top_5_campaigns entry and five slides when it has one, titled in the
    fixed order. *)
Theorem report_needs_the_seven_global_keys
    (format : value -> string -> outcome string) (today : string)
    (s : gmap string value) (insights : list string)
    (chart_path output_path : string) :
  (forall v spec, exists str, format v spec = Ok str) ->
  (forall v, s !! "avg_ctr" = Some v -> is_number v) ->
  top_is_dict s ->
  match List.find (absent s) global_keys with
  | Some key =>
      create_powerpoint_report format today s insights chart_path output_path
      = Raised ("KeyError: " +:+ key)
  | None =>
      exists slides,
        create_powerpoint_report format today s insights chart_path output_path
        = Ok (output_path, slides) /\
        List.length slides = (if absent s "top_5_campaigns" then 4 else 5)%nat /\
        map title slides = firstn (List.length slides) slide_titles
  end.
Proof.
  exact (report_cases format today s insights chart_path output_path).
Qed.

Lemma report_needs_the_seven_global_keys_witness :
  (forall v spec, exists str, blank_format v spec = Ok str) /\
  (forall v, global_summary empty_table !! "avg_ctr" = Some v -> is_number v) /\
  top_is_dict (global_summary empty_table) /\
  exists slides,
    create_powerpoint_report blank_format "January 01, 2024"
      (global_summary empty_table) [] "chart.png" "report.pptx"
    = Ok ("report.pptx", slides) /\
    List.length slides = 4%nat.
Proof.
  assert (H1 : forall v spec, exists str, blank_format v spec = Ok str)
    by (intros; now exists "").
  assert (H2 : forall v, global_summary empty_table !! "avg_ctr" = Some v ->
                         is_number v).
  { intros v Hv. vm_compute in Hv. inversion Hv. exact I. }
  assert (H3 : top_is_dict (global_summary empty_table)).
  { intros v Hv. vm_compute in Hv. discriminate. }
  split; [exact H1|]. split; [exact H2|]. split; [exact H3|].
  destruct (report_needs_the_seven_global_keys blank_format "January 01, 2024"
              (global_summary empty_table) [] "chart.png" "report.pptx" H1 H2 H3)
    as (slides & Hs & Hlen & _).
  now exists slides.
Defined.

(** X15. The report shows the first four insights only: two lists of
    insights with the same first four give the same result, and in a
    returned report the paragraphs of the second slide are these four,
    or fewer when fewer are given, each after a bullet. *)
Theorem report_shows_first_four_insights
    (format : value -> string -> outcome string) (today : string)
    (s : gmap string value) (chart_path output_path : string) :
  (forall insights insights',
      firstn 4 insights = firstn 4 insights' ->
      create_powerpoint_report format today s insights chart_path output_path =
      create_powerpoint_report format today s insights' chart_path output_path) /\
  (forall insights p slides,
      create_powerpoint_report format today s insights chart_path output_path
      = Ok (p, slides) ->
      exists slide2,
        nth_error slides 1 = Some slide2 /\
        title slide2 = "Executive Summary" /\
        paragraphs slide2 = map (fun i => "• " +:+ i) (firstn 4 insights) /\
        (List.length (paragraphs slide2) <= 4)%nat).
Proof.
  split.
  - intros insights insights' H. unfold create_powerpoint_report. now rewrite H.
  - intros insights p slides H.
    destruct (report_shape format today s insights chart_path output_path p slides H)
      as (_ & metrics & rest & -> & _).
    eexists. split; [reflexivity|]. split; [reflexivity|]. split; [reflexivity|].
    simpl paragraphs. rewrite length_map, length_firstn. lia.
Qed.

Lemma report_shows_first_four_insights_witness :
  firstn 4 ["one"; "two"; "three"; "four"; "five"; "six"; "seven"] =
  firstn 4 ["one"; "two"; "three"; "four"] /\
  create_powerpoint_report blank_format "January 01, 2024"
    (global_summary empty_table)
    ["one"; "two"; "three"; "four"; "five"; "six"; "seven"]
    "chart.png" "report.pptx" =
  create_powerpoint_report blank_format "January 01, 2024"
    (global_summary empty_table) ["one"; "two"; "three"; "four"]
    "chart.png" "report.pptx".
Proof.
  split; [reflexivity|].
  exact (proj1 (report_shows_first_four_insights blank_format "January 01, 2024"
                  (global_summary empty_table) "chart.png" "report.pptx")
           _ _ eq_refl).
Defined.

(** X16. The aggregator followed by the report: with a [format] that
    renders every value, the report is returned for every summary that
    the aggregator returns.  It has four slides when no campaign occurs
    in the table, and otherwise five, the fifth with one line for each of
    five campaigns, or for each campaign when there are fewer. *)
Theorem report_of_returned_summary
    (format : value -> string -> outcome string) (today : string)
    (data : Table) (s : gmap string value) (insights : list string)
    (chart_path output_path : string) :
  (forall v spec, exists str, format v spec = Ok str) ->
  calculate_summary_stats data = Ok s ->
  exists slides,
    create_powerpoint_report format today s insights chart_path output_path
    = Ok (output_path, slides) /\
    ((forall k, ~ occurs k (rows data)) -> List.length slides = 4%nat) /\
    ((exists k, occurs k (rows data)) ->
     List.length slides = 5%nat /\
     exists top,
       nth_error slides 4 = Some top /\
       title top = "Top 5 Campaigns" /\
       List.length (paragraphs top) =
         Nat.min 5 (List.length (group_keys (rows data)))).
Proof.
  intros Htotal Hcalc.
  pose proof (report_cases format today s insights chart_path output_path Htotal) as Hc.
  assert (Hfind : List.find (absent s) global_keys = None).
  { destruct (summary_shape data s Hcalc)
      as [[_ ->]|[_ (best & worst & b & w & _ & _ & ->)]];
      unfold global_keys, absent, global_summary; cbn [List.find];
      now simplify_map_eq. }
  assert (Hnum : forall v, s !! "avg_ctr" = Some v -> is_number v).
  { intros v Hv.
    rewrite (global_entry data s "avg_ctr" Hcalc) in Hv
      by (unfold global_keys; simpl; tauto).
    unfold global_summary in Hv. simplify_map_eq. exact I. }
  assert (Htop : s !! "top_5_campaigns" =
                 if campaign_stats (rows data) is [] then None
                 else Some (VDict (nlargest 5 (campaign_stats (rows data))))).
  { destruct (summary_shape data s Hcalc)
      as [[Es ->]|[Hne (best & worst & b & w & _ & _ & ->)]].
    - rewrite Es. unfold global_summary. now simplify_map_eq.
    - destruct (campaign_stats (rows data)); [congruence|]. now simplify_map_eq. }
  assert (Hdict : top_is_dict s).
  { intros v Hv. rewrite Htop in Hv.
    destruct (campaign_stats (rows data)); [discriminate|]. inversion Hv. eauto. }
  rewrite Hfind in Hc. destruct (Hc Hnum Hdict) as (slides & Hs & Hlen & _).
  exists slides. split; [exact Hs|]. unfold absent in Hlen. split.
  - intros Hnone. apply stats_empty_iff in Hnone. rewrite Htop, Hnone in Hlen.
    exact Hlen.
  - intros [k Hk].
    destruct (campaign_stats (rows data)) as [|e stats] eqn:Es.
    { exfalso. exact (proj1 (stats_empty_iff (rows data)) Es k Hk). }
    rewrite Htop in Hlen. split; [exact Hlen|].
    destruct (report_shape format today s insights chart_path output_path _ _ Hs)
      as (_ & metrics & rest & -> & _ & [[Hn _]|(d & lines & Hd & Hl & ->)]).
    { rewrite Htop in Hn. discriminate. }
    eexists. split; [reflexivity|]. split; [reflexivity|]. simpl paragraphs.
    rewrite (top_lines_length format d 1%Z lines Hl).
    rewrite Htop in Hd. inversion Hd. subst d. rewrite <- Es.
    assert (Hsorted : StronglySorted key_lt (map fst (campaign_stats (rows data)))).
    { rewrite stats_keys. apply group_keys_sorted. }
    destruct (nlargest_spec 5 _ Hsorted) as (Hn5 & _).
    rewrite Hn5, <- stats_keys, length_map. reflexivity.
Qed.

Lemma report_of_returned_summary_witness :
  (forall v spec, exists str, blank_format v spec = Ok str) /\
  exists s slides,
    calculate_summary_stats tie_table = Ok s /\
    create_powerpoint_report blank_format "January 01, 2024" s []
      "chart.png" "report.pptx" = Ok ("report.pptx", slides) /\
    List.length slides = 5%nat.
Proof.
  assert (H1 : forall v spec, exists str, blank_format v spec = Ok str)
    by (intros; now exists "").
  split; [exact H1|].
  eexists.
  destruct (report_of_returned_summary blank_format "January 01, 2024" tie_table
              _ [] "chart.png" "report.pptx" H1 eq_refl)
    as (slides & Hs & _ & Hfive).
  exists slides. split; [reflexivity|]. split; [exact Hs|].
  apply Hfive. exists "A", (plain_record "A"). simpl. auto.
Defined.

(** ** The whole run *)






Section RunFacts.

Variable file_exists : string -> bool.
Variable read_csv : string -> RawFrame + string.
Variable to_numeric_str : string -> num.
Variable to_datetime : cell -> option stamp.
Variable format : value -> string -> outcome string.
Variable today : string.
Variable join : string -> string -> string.






End RunFacts.



